(** * License usage report: a shallow embedding of [license_report.py]

    The development follows the source file top to bottom: the License
    Namer ([get_friendly_license_name]), the Analyzer ([analyze_licenses]),
    the colour coding of the summary sheet ([create_excel_report]) and the
    console summary ([print_summary]).  Python integers are [Z]; Python
    floats are rationals produced by a rounding function [fl]; JSON objects
    are records whose optional keys are [option] fields; exceptions are an
    explicit [result] type. *)

From Stdlib Require Import ZArith QArith Qabs Lia Lqa.
From Stdlib Require Import Permutation Sorted.
From stdpp Require Import gmap strings list.

Local Open Scope Z_scope.
Local Open Scope string_scope.

(** ** Exceptions *)

Inductive exn : Type :=
| ZeroDivisionError
| IndexError.

Inductive result (A : Type) : Type :=
| Return (a : A)
| Raise (e : exn).

Arguments Return {A} a.
Arguments Raise {A} e.

(** [result] is a monad in stdpp's sense, so that the embedded code can be
    written with [x ← m; k]. *)
#[export] Instance result_ret : MRet result := fun _ a => Return a.
#[export] Instance result_bind : MBind result := fun _ _ k m =>
  match m with
  | Return a => k a
  | Raise e => Raise e
  end.

(** ** Numbers

    Python integers are unbounded, hence [Z].  A Python float is modelled by
    the rational it denotes; the rounding that each floating-point operation
    performs is the function [fl] below; the exponent range of floats
    (overflow, subnormal numbers) is not modelled.  A report row stores either the
    integer literal [0] or a float in [utilization_pct], so the field has
    the two-constructor type [number]. *)

Inductive number : Type :=
| PyInt (z : Z)
| PyFloat (q : Q).

Definition num_value (n : number) : Q :=
  match n with
  | PyInt z => inject_Z z
  | PyFloat q => q
  end.

Definition Qltb (x y : Q) : bool :=
  (Qnum x * Zpos (Qden y) <? Qnum y * Zpos (Qden x))%Z.

(** [n < k] for an integer literal [k]; Python compares an int or a float
    with an int by value. *)
Definition num_lt (n : number) (k : Z) : bool := Qltb (num_value n) (inject_Z k).

(** Python's [sum] over integers: starts at [0] and adds from the left. *)
Definition sum (l : list Z) : Z := foldl Z.add 0 l.

(** ** Data model: the JSON objects returned by the directory *)

Record license : Type := License { lic_skuId : string }.

Record prepaid_units : Type := PrepaidUnits { enabled : Z }.

Record sku : Type := Sku {
  skuId : string;
  skuPartNumber : string;
  prepaidUnits : prepaid_units;
  consumedUnits : Z
}.

(** [assignedLicenses] is read with [user.get('assignedLicenses', [])]: the
    key may be absent, which is [None] here. *)
Record user : Type := User {
  displayName : string;
  userPrincipalName : string;
  assignedLicenses : option (list license)
}.

(** The dictionary appended to [license_data] by [analyze_licenses]. *)
Record report_row : Type := ReportRow {
  license_name : string;
  sku_code : string;
  total_licenses : Z;
  assigned : Z;
  available : Z;
  utilization_pct : number;
  users : list string
}.

(** ** License Namer *)

(** The dictionary literal of [get_friendly_license_name], in source order. *)
Definition license_table : list (string * string) :=
  [ ("ENTERPRISEPACK", "Office 365 E3");
    ("ENTERPRISEPREMIUM", "Office 365 E5");
    ("SPE_E3", "Microsoft 365 E3");
    ("SPE_E5", "Microsoft 365 E5");
    ("STANDARDPACK", "Office 365 E1");
    ("DESKLESSPACK", "Office 365 F3");
    ("EXCHANGESTANDARD", "Exchange Online (Plan 1)");
    ("EXCHANGEENTERPRISE", "Exchange Online (Plan 2)");
    ("SHAREPOINTSTANDARD", "SharePoint Online (Plan 1)");
    ("SHAREPOINTENTERPRISE", "SharePoint Online (Plan 2)");
    ("POWER_BI_STANDARD", "Power BI (Free)");
    ("POWER_BI_PRO", "Power BI Pro");
    ("PROJECTPROFESSIONAL", "Project Plan 3");
    ("VISIOCLIENT", "Visio Plan 2");
    ("TEAMS_EXPLORATORY", "Microsoft Teams Exploratory");
    ("FLOW_FREE", "Power Automate Free");
    ("POWERAPPS_VIRAL", "Power Apps Trial") ].

(** A Python dict literal inserts its items from left to right, a later item
    replacing an earlier one with the same key. *)
Definition dict_literal (items : list (string * string)) : gmap string string :=
  foldl (fun d kv => <[kv.1 := kv.2]> d) ∅ items.

Definition license_names : gmap string string := dict_literal license_table.

(** [license_names.get(sku_part_number, sku_part_number)] *)
Definition get_friendly_license_name (sku_part_number : string) : string :=
  default sku_part_number (license_names !! sku_part_number).

(** ** Analyzer

    The two progress messages that [analyze_licenses] prints are left out;
    its result is the list [license_data] or an exception. *)

Section Analyzer.

(** [fl x] is the float nearest to the real [x]. *)
Variable fl : Q -> Q.

(** [a / b] on two ints: true division, [ZeroDivisionError] on [b = 0]. *)
Definition truediv (a b : Z) : result Q :=
  if (b =? 0)%Z then Raise ZeroDivisionError
  else Return (fl (inject_Z a / inject_Z b)%Q).

(** [x * n] for a float [x] and an int [n] that a float holds exactly. *)
Definition float_mul_int (x : Q) (n : Z) : Q := fl (x * inject_Z n)%Q.

(** [any(license['skuId'] == sku_id
         for license in user.get('assignedLicenses', []))] *)
Definition any_license_matches (sku_id : string) (u : user) : bool :=
  existsb (fun license => String.eqb (lic_skuId license) sku_id)
          (default [] (assignedLicenses u)).

(** The inner loop, lines 123-126: [users_with_license] grows by
    [append]. *)
Fixpoint find_users (sku_id : string) (us : list user)
    (users_with_license : list string) : list string :=
  match us with
  | [] => users_with_license
  | u :: rest =>
      if any_license_matches sku_id u
      then find_users sku_id rest (users_with_license ++ [displayName u])
      else find_users sku_id rest users_with_license
  end.

(** [(consumed / enabled * 100) if enabled > 0 else 0] *)
Definition utilization_expr (consumed enabled : Z) : result number :=
  if (enabled >? 0)%Z
  then q ← truediv consumed enabled; Return (PyFloat (float_mul_int q 100))
  else Return (PyInt 0).

(** The outer loop, lines 112-136: one [append] to [license_data] per
    element of [skus]. *)
Fixpoint analyze_loop (skus : list sku) (us : list user)
    (license_data : list report_row) : result (list report_row) :=
  match skus with
  | [] => Return license_data
  | s :: rest =>
      let sku_id := skuId s in
      let sku_part_number := skuPartNumber s in
      let friendly_name := get_friendly_license_name sku_part_number in
      let enabled := enabled (prepaidUnits s) in
      let consumed := consumedUnits s in
      let available := enabled - consumed in
      let users_with_license := find_users sku_id us [] in
      utilization ← utilization_expr consumed enabled;
      analyze_loop rest us
        (license_data ++
           [ {| license_name := friendly_name;
                sku_code := sku_part_number;
                total_licenses := enabled;
                assigned := consumed;
                available := available;
                utilization_pct := utilization;
                users := users_with_license |} ])
  end.

Definition analyze_licenses (skus : list sku) (us : list user)
  : result (list report_row) :=
  analyze_loop skus us [].

End Analyzer.

(** ** Formatted text

    An f-string is kept as its sequence of pieces: the literal text and the
    replacement fields with their format specifications.  Rendering a field
    to characters is the formatter's business and is not modelled. *)

Inductive piece : Type :=
| Lit (s : string)                   (* literal text *)
| FInt (z : Z)                       (* {z} *)
| FIntW (width : nat) (z : Z)        (* {z:3} *)
| FStrW (width : nat) (s : string)   (* {s:40} *)
| FFixed (digits : nat) (n : number) (* {n:.1f}, {n:.0f} *).

(** [s * n] on a string. *)
Fixpoint string_repeat (s : string) (n : nat) : string :=
  match n with
  | O => ""
  | S n' => s ++ string_repeat s n'
  end.

(** ** Report Writer: the spreadsheet *)

Record pattern_fill : Type := PatternFill {
  start_color : string;
  end_color : string;
  fill_type : string
}.

Record font_style : Type := Font { color : string; bold : bool }.

Inductive cell_value : Type :=
| CStr (s : string)
| CInt (z : Z)
| CText (t : list piece).

Record cell : Type := Cell {
  value : cell_value;
  fill : option pattern_fill;
  font : option font_style;
  alignment : option string
}.

(** A sheet is its title and its rows; openpyxl counts rows and columns
    from 1, so [ws.cell(row, column)] is [cells !! (row-1) !! (column-1)].
    Column widths, the time stamp of the file name and the saving of the
    file are left out. *)
Record worksheet : Type := Worksheet {
  title : string;
  cells : list (list cell)
}.

Definition ws_append (ws : worksheet) (values : list cell_value) : worksheet :=
  {| title := title ws;
     cells := cells ws ++ [map (fun v => Cell v None None None) values] |}.

Definition ws_cell (ws : worksheet) (row column : nat) : option cell :=
  r ← cells ws !! (row - 1)%nat; r !! (column - 1)%nat.

Definition set_fill (f : pattern_fill) (c : cell) : cell :=
  {| value := value c; fill := Some f; font := font c; alignment := alignment c |}.

Definition set_font (f : font_style) (c : cell) : cell :=
  {| value := value c; fill := fill c; font := Some f; alignment := alignment c |}.

Definition set_alignment (a : string) (c : cell) : cell :=
  {| value := value c; fill := fill c; font := font c; alignment := Some a |}.

(** An assignment to an attribute of [ws.cell(row, column)] for a cell
    that exists; the loops below only address rows and columns that were
    appended before. *)
Definition ws_update (ws : worksheet) (row column : nat) (f : cell -> cell)
  : worksheet :=
  {| title := title ws;
     cells := alter (alter f (column - 1)%nat) (row - 1)%nat (cells ws) |}.

Definition header_fill : pattern_fill := PatternFill "366092" "366092" "solid".
Definition header_font : font_style := Font "FFFFFF" true.

Definition red_fill : pattern_fill := PatternFill "FFC7CE" "FFC7CE" "solid".
Definition yellow_fill : pattern_fill := PatternFill "FFEB9C" "FFEB9C" "solid".
Definition green_fill : pattern_fill := PatternFill "C6EFCE" "C6EFCE" "solid".

Definition headers : list cell_value :=
  [ CStr "License Type"; CStr "SKU Code"; CStr "Total Purchased";
    CStr "Assigned"; CStr "Available"; CStr "Utilization %" ].

(** Lines 157-160: [for cell in ws[1]]. *)
Definition style_header_row (ws : worksheet) : worksheet :=
  {| title := title ws;
     cells := alter (map (fun c => set_alignment "center"
                                     (set_font header_font
                                        (set_fill header_fill c))))
                    0%nat (cells ws) |}.

(** Lines 163-171: one appended row per element of [license_data]. *)
Definition append_data_rows (ws : worksheet) (license_data : list report_row)
  : worksheet :=
  foldl (fun w lic =>
           ws_append w
             [ CStr (license_name lic);
               CStr (sku_code lic);
               CInt (total_licenses lic);
               CInt (assigned lic);
               CInt (available lic);
               CText [FFixed 1 (utilization_pct lic); Lit "%"] ])
        ws license_data.

(** [license_data[i]] for a non-negative index. *)
Definition index {A : Type} (l : list A) (i : nat) : result A :=
  match l !! i with
  | Some a => Return a
  | None => Raise IndexError
  end.

(** Lines 178-183: the fill chosen for a utilization value. *)
Definition utilization_fill (util_value : number) : pattern_fill :=
  if num_lt util_value 50 then red_fill
  else if num_lt util_value 80 then yellow_fill
  else green_fill.

(** Lines 174-183: [for row in range(2, len(license_data) + 2)]. *)
Fixpoint color_code (rows : list nat) (license_data : list report_row)
    (ws : worksheet) : result worksheet :=
  match rows with
  | [] => Return ws
  | row :: rest =>
      lic ← index license_data (row - 2)%nat;
      let util_value := utilization_pct lic in
      color_code rest license_data
        (ws_update ws row 6%nat (set_fill (utilization_fill util_value)))
  end.

(** [range(a, b)] *)
Definition range (a b : nat) : list nat := seq a (b - a)%nat.

(** Lines 194-203: the sheet of user assignments. *)
Definition user_assignments (license_data : list report_row) : worksheet :=
  let ws2 := ws_append (Worksheet "User Assignments" [])
               [CStr "License Type"; CStr "User Name"] in
  let ws2 := ws_update ws2 1%nat 1%nat (set_fill header_fill) in
  let ws2 := ws_update ws2 1%nat 1%nat (set_font header_font) in
  let ws2 := ws_update ws2 1%nat 2%nat (set_fill header_fill) in
  let ws2 := ws_update ws2 1%nat 2%nat (set_font header_font) in
  foldl (fun w lic =>
           foldl (fun w' u => ws_append w' [CStr (license_name lic); CStr u])
                 w (users lic))
        ws2 license_data.

(** [create_excel_report]: the workbook that is saved, as the pair of its
    two sheets. *)
Definition create_excel_report (license_data : list report_row)
  : result (worksheet * worksheet) :=
  let ws := Worksheet "License Summary" [] in
  let ws := ws_append ws headers in
  let ws := style_header_row ws in
  let ws := append_data_rows ws license_data in
  ws ← color_code (range 2 (length license_data + 2)) license_data ws;
  Return (ws, user_assignments license_data).

(** ** Report Writer: the console summary *)

(** Console output is the list of printed lines; a computation prints and
    then returns or raises. *)
Definition console : Type := list (list piece).

Definition io (A : Type) : Type := console -> console * result A.

#[export] Instance io_ret : MRet io := fun _ a out => (out, Return a).
#[export] Instance io_bind : MBind io := fun _ _ k m out =>
  match m out with
  | (out', Return a) => k a out'
  | (out', Raise e) => (out', Raise e)
  end.

Definition print (l : list piece) : io unit := fun out => ((out ++ [l])%list, Return tt).

Definition lift {A : Type} (r : result A) : io A := fun out => (out, r).

(** [for x in l: body x] *)
Fixpoint for_each {A : Type} (l : list A) (body : A -> io unit) : io unit :=
  match l with
  | [] => mret tt
  | x :: rest => _ ← body x; for_each rest body
  end.

(** [sorted(l, key=key, reverse=True)]: descending keys, and elements with
    equal keys stay in their original order. *)
Fixpoint insert_reverse {A : Type} (key : A -> Z) (x : A) (l : list A) : list A :=
  match l with
  | [] => [x]
  | y :: l' =>
      if (key x <? key y)%Z then y :: insert_reverse key x l'
      else x :: y :: l'
  end.

Definition sorted_reverse {A : Type} (key : A -> Z) (l : list A) : list A :=
  foldr (insert_reverse key) [] l.

(** Line 236: the list comprehension. *)
Definition low_util (license_data : list report_row) : list report_row :=
  List.filter
    (fun lic => num_lt (utilization_pct lic) 70 && (total_licenses lic >? 0)%Z)
    license_data.

Section Summary.

Variable fl : Q -> Q.

Definition print_summary (license_data : list report_row) : io unit :=
  _ ← print [Lit (string_repeat "=" 70)];
  _ ← print [Lit "LICENSE USAGE SUMMARY"];
  _ ← print [Lit (string_repeat "=" 70)];
  let total_licenses := sum (map total_licenses license_data) in
  let total_assigned := sum (map assigned license_data) in
  let total_available := sum (map available license_data) in
  _ ← print [Lit "Total Licenses Purchased:  "; FInt total_licenses];
  _ ← print [Lit "Total Assigned:            "; FInt total_assigned];
  _ ← print [Lit "Total Available (Unused):  "; FInt total_available];
  q ← lift (truediv fl total_assigned total_licenses);
  _ ← print [Lit "Overall Utilization:       ";
             FFixed 1 (PyFloat (float_mul_int fl q 100)); Lit "%"];
  _ ← print [];
  _ ← print [Lit "⚠️  LOW UTILIZATION LICENSES (Potential Cost Savings):"];
  _ ← print [Lit (string_repeat "-" 70)];
  let low_util := low_util license_data in
  _ ← match low_util with
      | _ :: _ =>
          for_each (sorted_reverse available low_util)
            (fun lic => print [ FStrW 40 (license_name lic); Lit " | ";
                                FIntW 3 (available lic); Lit " unused (";
                                FFixed 0 (utilization_pct lic);
                                Lit "% utilization)" ])
      | [] => print [Lit "No licenses with low utilization found."]
      end;
  print [Lit (string_repeat "=" 70)].

End Summary.

(** ** Closed forms used to state the results of the loops *)

(** The value of the utilization expression of line 134. *)
Definition utilization_value (fl : Q -> Q) (consumed enabled : Z) : number :=
  if (enabled >? 0)%Z
  then PyFloat (float_mul_int fl (fl (inject_Z consumed / inject_Z enabled)%Q) 100)
  else PyInt 0.

(** The dictionary that one iteration of the outer loop appends. *)
Definition row_of (fl : Q -> Q) (us : list user) (s : sku) : report_row :=
  {| license_name := get_friendly_license_name (skuPartNumber s);
     sku_code := skuPartNumber s;
     total_licenses := enabled (prepaidUnits s);
     assigned := consumedUnits s;
     available := enabled (prepaidUnits s) - consumedUnits s;
     utilization_pct :=
       utilization_value fl (consumedUnits s) (enabled (prepaidUnits s));
     users := find_users (skuId s) us [] |}.

(** The summary-sheet row appended for one report row. *)
Definition data_row (lic : report_row) : list cell :=
  map (fun v => Cell v None None None)
    [ CStr (license_name lic);
      CStr (sku_code lic);
      CInt (total_licenses lic);
      CInt (assigned lic);
      CInt (available lic);
      CText [FFixed 1 (utilization_pct lic); Lit "%"] ].

(** The same row once the colour-coding loop has visited it. *)
Definition colored_row (lic : report_row) : list cell :=
  alter (set_fill (utilization_fill (utilization_pct lic))) 5%nat (data_row lic).

Definition header_row : list cell :=
  map (fun v => Cell v (Some header_fill) (Some header_font) (Some "center"))
      headers.

(** The six lines that [print_summary] prints before it divides. *)
Definition summary_head (license_data : list report_row) : console :=
  [ [Lit (string_repeat "=" 70)];
    [Lit "LICENSE USAGE SUMMARY"];
    [Lit (string_repeat "=" 70)];
    [Lit "Total Licenses Purchased:  ";
     FInt (sum (map total_licenses license_data))];
    [Lit "Total Assigned:            ";
     FInt (sum (map assigned license_data))];
    [Lit "Total Available (Unused):  ";
     FInt (sum (map available license_data))] ].

Definition overall_line (v : Q) : list piece :=
  [Lit "Overall Utilization:       "; FFixed 1 (PyFloat v); Lit "%"].

Definition low_line (lic : report_row) : list piece :=
  [ FStrW 40 (license_name lic); Lit " | ";
    FIntW 3 (available lic); Lit " unused (";
    FFixed 0 (utilization_pct lic);
    Lit "% utilization)" ].

(** The lines printed for the low-utilization list [shown]. *)
Definition low_section (shown : list report_row) : console :=
  match shown with
  | [] => [[Lit "No licenses with low utilization found."]]
  | _ :: _ => map low_line shown
  end.

#[export] Instance Qlt_decision (x y : Q) : Decision (x < y)%Q :=
  match Qlt_le_dec x y with
  | left H => left H
  | right H => right (Qle_not_lt _ _ H)
  end.

(** The SKU ids in a user's assigned-license collection; an absent
    collection has none. *)
Definition assigned_sku_ids (u : user) : list string :=
  map lic_skuId (default [] (assignedLicenses u)).

(** The standard model of floating-point arithmetic: every operation
    returns its exact result with a relative error of at most [eps]. *)
Definition standard_model (fl : Q -> Q) (eps : Q) : Prop :=
  (0 <= eps)%Q /\ forall x : Q, (Qabs (fl x - x) <= eps * Qabs x)%Q.

(** ** Sample directory data *)

Definition sku_a : sku := Sku "A" "SPE_E3" (PrepaidUnits 100) 40.
Definition sku_b : sku := Sku "B" "UNLISTED" (PrepaidUnits 0) 0.
Definition alice : user := User "Alice" "alice@example.org" (Some [License "A"]).
Definition bob : user := User "Bob" "bob@example.org" (Some []).

Definition alice_namesake : user :=
  User "Alice" "alice.b@example.org" (Some []).
Definition alice_holder : user :=
  User "Alice" "alice.c@example.org" (Some [License "A"]).
Definition alice_no_field : user :=
  User "Alice" "alice.d@example.org" None.

(** ** The entry point and the functions it calls

    [main] and its callees act on three things outside the program: the
    console, the directory service and the file system.  The service is an
    [environment] that answers the token request and the two GET requests;
    the console, the log of requested URLs and the saved workbooks make up
    the [world] that a [proc] computation transforms.  The JSON bodies are
    taken to have the shape the service documents (a [value] list of
    records); a string field of an f-string without a format specification
    renders as the string itself and is kept as a [Lit]. *)

(** The newline character, written \n in the source. *)
Definition nl : string :=
  String (Ascii.Ascii false true false true false false false false) "".

(** What a GET request comes to: [requests.get] or [raise_for_status]
    raised a [RequestException] [e], printed as [msg], or
    [response.json()['value']] is [value]. *)
Inductive http_outcome (A : Type) : Type :=
| RequestFailed (msg : string)
| JsonValue (value : list A).

Arguments RequestFailed {A} msg.
Arguments JsonValue {A} value.

Record environment : Type := Environment {
  (* the dictionary returned by [app.acquire_token_for_client] *)
  token_result : gmap string string;
  (* the answers to the two GET requests, given the bearer token *)
  get_skus : string -> http_outcome sku;
  get_users : string -> http_outcome user;
  (* [datetime.now().strftime('%Y%m%d_%H%M%S')] *)
  timestamp : string
}.

Definition workbook : Type := (worksheet * worksheet)%type.

Record world : Type := World {
  stdout : console;
  requested : list string;
  saved : list (string * workbook)
}.

Definition initial_world : world := World [] [] [].

Definition proc (A : Type) : Type := world -> world * result A.

#[export] Instance proc_ret : MRet proc := fun _ a w => (w, Return a).
#[export] Instance proc_bind : MBind proc := fun _ _ k m w =>
  match m w with
  | (w', Return a) => k a w'
  | (w', Raise e) => (w', Raise e)
  end.

Definition say (l : list piece) : proc unit := fun w =>
  (World (stdout w ++ [l])%list (requested w) (saved w), Return tt).

Definition request (url : string) : proc unit := fun w =>
  (World (stdout w) (requested w ++ [url])%list (saved w), Return tt).

(** [wb.save(filename)] *)
Definition save (filename : string) (wb : workbook) : proc unit := fun w =>
  (World (stdout w) (requested w) (saved w ++ [(filename, wb)])%list, Return tt).

Definition lift_result {A : Type} (r : result A) : proc A := fun w => (w, r).

(** A computation that only prints, run on the console of the world. *)
Definition lift_io {A : Type} (m : io A) : proc A := fun w =>
  let (out, r) := m (stdout w) in
  (World out (requested w) (saved w), r).

Definition skus_url : string := "https://graph.microsoft.com/v1.0/subscribedSkus".
Definition users_url : string :=
  "https://graph.microsoft.com/v1.0/users?$select=displayName,userPrincipalName,assignedLicenses".

Section EntryPoint.

Variable fl : Q -> Q.
Variable env : environment.

(** [get_access_token], lines 19-36. *)
Definition get_access_token : proc (option string) :=
  _ ← say [Lit "Authenticating..."];
  let result := token_result env in
  match result !! "access_token" with
  | Some access_token =>
      _ ← say [Lit ("✓ Authentication successful" ++ nl)];
      mret (Some access_token)
  | None =>
      _ ← say [ Lit "✗ Authentication failed: ";
                Lit (default "None" (result !! "error_description"));
                Lit nl ];
      mret None
  end.

(** [get_subscribed_skus], lines 38-57. *)
Definition get_subscribed_skus (token : string) : proc (list sku) :=
  _ ← say [Lit "Retrieving license subscriptions..."];
  _ ← request skus_url;
  match get_skus env token with
  | JsonValue skus =>
      _ ← say [ Lit "✓ Retrieved "; FInt (Z.of_nat (length skus));
                Lit (" license types" ++ nl) ];
      mret skus
  | RequestFailed e =>
      _ ← say [Lit "✗ Error retrieving licenses: "; Lit e; Lit nl];
      mret []
  end.

(** [get_users_with_licenses], lines 59-79. *)
Definition get_users_with_licenses (token : string) : proc (list user) :=
  _ ← say [Lit "Retrieving users and their licenses..."];
  _ ← request users_url;
  match get_users env token with
  | JsonValue users =>
      _ ← say [ Lit "✓ Retrieved "; FInt (Z.of_nat (length users));
                Lit (" users" ++ nl) ];
      mret users
  | RequestFailed e =>
      _ ← say [Lit "✗ Error retrieving users: "; Lit e; Lit nl];
      mret []
  end.

(** [analyze_licenses] with its two progress messages. *)
Definition analyze_licenses_proc (skus : list sku) (us : list user)
  : proc (list report_row) :=
  _ ← say [Lit "Analyzing license usage..."];
  license_data ← lift_result (analyze_licenses fl skus us);
  _ ← say [Lit ("✓ Analysis complete" ++ nl)];
  mret license_data.

(** [create_excel_report] with its messages, the file name and the saving
    of the workbook; the result is the file name. *)
Definition create_excel_report_proc (license_data : list report_row)
  : proc string :=
  _ ← say [Lit "Creating Excel report..."];
  wb ← lift_result (create_excel_report license_data);
  let filename := "license_report_" ++ timestamp env ++ ".xlsx" in
  _ ← save filename wb;
  _ ← say [Lit "✓ Report saved to: "; Lit filename; Lit nl];
  mret filename.

(** [main], lines 246-276.  [not token] holds for [None] and for the empty
    string, [not skus] for the empty list. *)
Definition main : proc unit :=
  _ ← say [Lit (nl ++ string_repeat "=" 70)];
  _ ← say [Lit "MICROSOFT LICENSE USAGE REPORT GENERATOR"];
  _ ← say [Lit (string_repeat "=" 70 ++ nl)];
  token ← get_access_token;
  match token with
  | None | Some "" =>
      say [Lit "Failed to authenticate. Check your .env file credentials."]
  | Some token =>
      skus ← get_subscribed_skus token;
      match skus with
      | [] => say [Lit "No licenses found or error retrieving licenses."]
      | _ :: _ =>
          us ← get_users_with_licenses token;
          match us with
          | [] => say [Lit "No users found or error retrieving users."]
          | _ :: _ =>
              license_data ← analyze_licenses_proc skus us;
              _ ← create_excel_report_proc license_data;
              lift_io (print_summary fl license_data)
          end
      end
  end.

End EntryPoint.

(** ** Closed forms for the second sheet and the stages of [main] *)

Definition assignments_header : list cell :=
  [ Cell (CStr "License Type") (Some header_fill) (Some header_font) None;
    Cell (CStr "User Name") (Some header_fill) (Some header_font) None ].

(** The rows that the second sheet gets for one report row. *)
Definition assignment_rows (lic : report_row) : list (list cell) :=
  map (fun u => [ Cell (CStr (license_name lic)) None None None;
                  Cell (CStr u) None None None ])
      (users lic).

(** The token with which [main] goes on, if any. *)
Definition usable_token (env : environment) : option string :=
  match token_result env !! "access_token" with
  | Some "" | None => None
  | Some t => Some t
  end.

(** The list that a GET stage hands to [main]. *)
Definition fetched {A : Type} (o : http_outcome A) : list A :=
  match o with
  | JsonValue value => value
  | RequestFailed _ => []
  end.

(** The SKUs and users with which [main] reaches the analysis, if it
    does. *)
Definition report_inputs (env : environment) : option (list sku * list user) :=
  match usable_token env with
  | None => None
  | Some t =>
      match fetched (get_skus env t), fetched (get_users env t) with
      | (_ :: _) as skus, (_ :: _) as us => Some (skus, us)
      | _, _ => None
      end
  end.

Definition report_filename (env : environment) : string :=
  "license_report_" ++ timestamp env ++ ".xlsx".

(** ** Sample environments *)


Definition env_no_users : environment :=
  Environment {[ "access_token" := "secret" ]}
    (fun _ => JsonValue [sku_a; sku_b])
    (fun _ => RequestFailed "503 Server Error")
    "20240101_120000".

Definition env_empty_token : environment :=
  Environment {[ "access_token" := "" ]}
    (fun _ => JsonValue [sku_a; sku_b])
    (fun _ => JsonValue [alice; bob])
    "20240101_120000".

(** * Properties *)

(** ** Comparisons *)

Lemma Qltb_spec (x y : Q) : Qltb x y = true <-> (x < y)%Q.
Proof. unfold Qltb, Qlt. apply Z.ltb_lt. Qed.

Lemma num_lt_spec (n : number) (k : Z) :
  num_lt n k = true <-> (num_value n < inject_Z k)%Q.
Proof. apply Qltb_spec. Qed.

Lemma num_lt_false (n : number) (k : Z) :
  num_lt n k = false <-> (inject_Z k <= num_value n)%Q.
Proof.
  rewrite <- not_true_iff_false, num_lt_spec.
  split; [apply Qnot_lt_le | apply Qle_not_lt].
Qed.

(** ** License Namer *)

Lemma dict_literal_acc_notin (items : list (string * string))
    (d : gmap string string) (k : string) :
  k ∉ items.*1 ->
  foldl (fun d kv => <[kv.1 := kv.2]> d) d items !! k = d !! k.
Proof.
  revert d. induction items as [|[k' v'] items IH]; intros d Hk; [done|].
  cbn in *. apply not_elem_of_cons in Hk as [Hne Hk].
  rewrite IH by done. by apply lookup_insert_ne.
Qed.

Lemma friendly_name_unknown (code : string) :
  code ∉ license_table.*1 -> get_friendly_license_name code = code.
Proof.
  intros Hk. unfold get_friendly_license_name, license_names, dict_literal.
  by rewrite dict_literal_acc_notin.
Qed.

(** C8: the friendly-name mapping is a function on all strings (it has no
    error result); the table has 17 distinct codes, each of which maps to
    its table value, and every other string maps to itself. *)
Theorem friendly_name_total (sku_part_number : string) :
  length license_table = 17%nat /\
  NoDup license_table.*1 /\
  (forall name, (sku_part_number, name) ∈ license_table ->
     get_friendly_license_name sku_part_number = name) /\
  (sku_part_number ∉ license_table.*1 ->
     get_friendly_license_name sku_part_number = sku_part_number).
Proof.
  split; [reflexivity|]. split; [|split].
  - apply (bool_decide_unpack (NoDup license_table.*1)). vm_compute. exact I.
  - intros name Hin. unfold license_table in Hin.
    repeat (apply elem_of_cons in Hin as [Hin|Hin];
            [inversion Hin; subst; vm_compute; reflexivity|]).
    by apply elem_of_nil in Hin.
  - apply friendly_name_unknown.
Qed.

(** ** Analyzer *)

Lemma any_license_matches_spec (sku_id : string) (u : user) :
  any_license_matches sku_id u = true <-> In sku_id (assigned_sku_ids u).
Proof.
  unfold any_license_matches, assigned_sku_ids.
  rewrite existsb_exists, in_map_iff.
  split; intros (l & H1 & H2).
  - apply String.eqb_eq in H2. eauto.
  - exists l. by rewrite String.eqb_eq.
Qed.

Lemma find_users_acc (sku_id : string) (us : list user) (acc : list string) :
  find_users sku_id us acc =
  (acc ++ map displayName (List.filter (any_license_matches sku_id) us))%list.
Proof.
  revert acc. induction us as [|u us IH]; intros acc; cbn.
  - by rewrite app_nil_r.
  - destruct (any_license_matches sku_id u); rewrite IH; [|done].
    cbn. by rewrite <- app_assoc.
Qed.

Lemma find_users_filter (sku_id : string) (us : list user) :
  find_users sku_id us [] =
  map displayName (List.filter (any_license_matches sku_id) us).
Proof. apply find_users_acc. Qed.

Section AnalyzerFacts.

Variable fl : Q -> Q.

Lemma utilization_expr_returns (consumed enabled : Z) :
  utilization_expr fl consumed enabled =
  Return (utilization_value fl consumed enabled).
Proof.
  unfold utilization_expr, utilization_value, truediv.
  destruct (Z.gtb_spec enabled 0) as [Hpos|Hnp]; [|done].
  destruct (Z.eqb_spec enabled 0) as [->|Hne]; [lia|done].
Qed.

Lemma analyze_loop_closed (us : list user) (skus : list sku)
    (acc : list report_row) :
  analyze_loop fl skus us acc = Return (acc ++ map (row_of fl us) skus)%list.
Proof.
  revert acc. induction skus as [|s skus IH]; intros acc; cbn.
  - by rewrite app_nil_r.
  - rewrite utilization_expr_returns. cbn. rewrite IH.
    by rewrite <- app_assoc.
Qed.

(** The analyzer is total: no exception escapes it. *)
Lemma analyze_licenses_returns (skus : list sku) (us : list user) :
  analyze_licenses fl skus us = Return (map (row_of fl us) skus).
Proof. apply analyze_loop_closed. Qed.

Lemma rows_Forall2 (us : list user) (skus : list sku) :
  Forall2 (fun s r => r = row_of fl us s) skus (map (row_of fl us) skus).
Proof. induction skus; constructor; auto. Qed.

End AnalyzerFacts.

(** ** Floating-point tolerance

    Under the standard model of floating-point arithmetic (each operation
    returns its exact result with a relative error of at most [eps]) the
    two operations of [x / y * 100] stay within [2*eps + eps^2] of the
    exact percentage. *)

Lemma percentage_tolerance (fl : Q -> Q) (eps : Q) (a : Q) :
  standard_model fl eps ->
  (Qabs (fl (fl a * 100) - a * 100) <= (2 * eps + eps * eps) * Qabs (a * 100))%Q.
Proof.
  intros [Heps Hfl].
  pose proof (Hfl a) as H1. pose proof (Hfl (fl a * 100)%Q) as H2.
  set (y := fl a) in *. set (z := fl (y * 100)%Q) in *.
  assert (Ht : (Qabs (z - a * 100) <=
                Qabs (z - y * 100) + Qabs (y - a) * 100)%Q).
  { assert (E : (z - a * 100 == (z - y * 100) + (y - a) * 100)%Q) by ring.
    rewrite E. clear E.
    eapply Qle_trans; [apply Qabs_triangle|].
    rewrite (Qabs_Qmult (y - a) 100). apply Qle_refl. }
  assert (Hy : (Qabs y <= Qabs (y - a) + Qabs a)%Q).
  { assert (E : (y == (y - a) + a)%Q) by ring.
    rewrite E at 1. apply Qabs_triangle. }
  rewrite (Qabs_Qmult y 100) in H2. rewrite (Qabs_Qmult a 100).
  change (Qabs 100) with 100%Q in *.
  pose proof (Qabs_nonneg a) as Ha. pose proof (Qabs_nonneg y) as Hy0.
  pose proof (Qabs_nonneg (y - a)) as Hya.
  revert H1 H2 Ht Hy Ha Hy0 Hya.
  generalize (Qabs (z - a * 100)) (Qabs (z - y * 100)) (Qabs (y - a))
             (Qabs y) (Qabs a).
  intros T U V Y A H1 H2 Ht Hy Ha Hy0 Hya.
  assert (H3 : (eps * (Y * 100) <= eps * ((V + A) * 100))%Q) by nra.
  assert (H4 : (eps * ((V + A) * 100) <= eps * ((eps * A + A) * 100))%Q) by nra.
  nra.
Qed.

(** Exact arithmetic, where [fl] returns its argument up to the
    representation of the rational, satisfies the model for every [eps]. *)
Lemma exact_arithmetic_standard (fl : Q -> Q) (eps : Q) :
  (0 <= eps)%Q -> (forall x, fl x == x)%Q -> standard_model fl eps.
Proof.
  intros Heps Hfl. split; [done|]. intros x.
  assert (E : (fl x - x == 0)%Q) by (rewrite Hfl; ring). rewrite E. cbn.
  apply Qmult_le_0_compat; [done | apply Qabs_nonneg].
Qed.

(** ** Claims about the analyzer *)

Section AnalyzerClaims.

Variable fl : Q -> Q.

(** C3: for a SKU list whose SKU ids are distinct, as the directory returns
    it, the analyzer returns as many rows as there are distinct SKUs, and
    the i-th row is the one computed from the i-th SKU of the input. *)
Theorem one_row_per_sku (skus : list sku) (us : list user) :
  NoDup (map skuId skus) ->
  exists rows,
    analyze_licenses fl skus us = Return rows /\
    length rows = size (list_to_set (map skuId skus) : gset string) /\
    Forall2 (fun s r => r = row_of fl us s) skus rows.
Proof.
  intros Hnd. exists (map (row_of fl us) skus).
  split; [apply analyze_licenses_returns|]. split.
  - rewrite size_list_to_set by done. by rewrite !length_map.
  - apply rows_Forall2.
Qed.

(** C7: every row's available count is the enabled count minus the
    consumed count of its SKU, without clamping: it is negative when more
    units are consumed than enabled. *)
Theorem available_not_clamped (skus : list sku) (us : list user) :
  exists rows,
    analyze_licenses fl skus us = Return rows /\
    Forall2 (fun s r =>
               available r = enabled (prepaidUnits s) - consumedUnits s /\
               (enabled (prepaidUnits s) < consumedUnits s <-> available r < 0))
            skus rows.
Proof.
  exists (map (row_of fl us) skus).
  split; [apply analyze_licenses_returns|].
  eapply Forall2_impl; [apply rows_Forall2|].
  intros s r ->. cbn. split; [done | lia].
Qed.

(** C2: for SKU records with a non-negative enabled count the analyzer
    raises nothing, the utilization of a row is the integer 0 when the
    enabled count is 0, and otherwise it is the float computed as
    consumed / enabled * 100, which lies within the floating-point
    tolerance [2*eps + eps^2] of the exact percentage. *)
Theorem utilization_guarded (eps : Q) (skus : list sku) (us : list user) :
  standard_model fl eps ->
  Forall (fun s => 0 <= enabled (prepaidUnits s)) skus ->
  exists rows,
    analyze_licenses fl skus us = Return rows /\
    Forall2 (fun s r =>
       let e := enabled (prepaidUnits s) in
       let c := consumedUnits s in
       (e = 0 -> utilization_pct r = PyInt 0) /\
       (e <> 0 ->
          truediv fl c e = Return (fl (inject_Z c / inject_Z e)%Q) /\
          utilization_pct r = PyFloat (fl (fl (inject_Z c / inject_Z e) * 100)%Q) /\
          (Qabs (num_value (utilization_pct r) - inject_Z c / inject_Z e * 100)
           <= (2 * eps + eps * eps) * Qabs (inject_Z c / inject_Z e * 100))%Q))
      skus rows.
Proof.
  intros Hstd Hwf. exists (map (row_of fl us) skus).
  split; [apply analyze_licenses_returns|].
  induction Hwf as [|s skus Hs Hwf IH]; cbn; constructor; [|exact IH].
  cbn. unfold utilization_value, truediv. split.
  - intros ->. reflexivity.
  - intros Hne.
    destruct (Z.gtb_spec (enabled (prepaidUnits s)) 0) as [Hpos|Hnp]; [|lia].
    destruct (Z.eqb_spec (enabled (prepaidUnits s)) 0) as [He|_]; [lia|].
    split; [reflexivity|]. split; [reflexivity|].
    cbn. apply percentage_tolerance, Hstd.
Qed.

End AnalyzerClaims.

Lemma one_row_per_sku_witness :
  NoDup (map skuId [sku_a; sku_b]) /\
  exists rows,
    analyze_licenses Qred [sku_a; sku_b] [alice; bob] = Return rows /\
    length rows = size (list_to_set (map skuId [sku_a; sku_b]) : gset string) /\
    Forall2 (fun s r => r = row_of Qred [alice; bob] s) [sku_a; sku_b] rows.
Proof.
  assert (Hnd : NoDup (map skuId [sku_a; sku_b])).
  { apply (bool_decide_unpack (NoDup (map skuId [sku_a; sku_b]))).
    vm_compute. exact I. }
  split; [exact Hnd | apply (one_row_per_sku Qred _ _ Hnd)].
Defined.

Lemma utilization_guarded_witness :
  standard_model Qred (1 # 9007199254740992) /\
  Forall (fun s => 0 <= enabled (prepaidUnits s)) [sku_a; sku_b] /\
  exists rows,
    analyze_licenses Qred [sku_a; sku_b] [alice; bob] = Return rows /\
    map utilization_pct rows = [PyFloat 40; PyInt 0].
Proof.
  assert (Hstd : standard_model Qred (1 # 9007199254740992)).
  { apply exact_arithmetic_standard; [discriminate | apply Qred_correct]. }
  assert (Hwf : Forall (fun s => 0 <= enabled (prepaidUnits s)) [sku_a; sku_b]).
  { repeat constructor; cbn; lia. }
  split; [exact Hstd|]. split; [exact Hwf|].
  destruct (utilization_guarded Qred (1 # 9007199254740992) [sku_a; sku_b]
              [alice; bob] Hstd Hwf) as (rows & Hrun & Hrows).
  exists rows. split; [exact Hrun|].
  rewrite analyze_licenses_returns in Hrun. inversion Hrun. reflexivity.
Defined.

(** ** Who is listed in a row *)

Lemma In_find_users (sku_id name : string) (us : list user) :
  In name (find_users sku_id us []) <->
  exists u, In u us /\ displayName u = name /\ In sku_id (assigned_sku_ids u).
Proof.
  rewrite find_users_filter, in_map_iff. split.
  - intros (u & Hname & Hin). apply filter_In in Hin as [Hin Hm].
    exists u. by rewrite <- any_license_matches_spec.
  - intros (u & Hin & Hname & Hm). exists u. split; [done|].
    apply filter_In. by rewrite any_license_matches_spec.
Qed.

Lemma NoDup_map_injective {A B : Type} (f : A -> B) (l : list A) (x y : A) :
  NoDup (map f l) -> In x l -> In y l -> f x = f y -> x = y.
Proof.
  induction l as [|a l IH]; cbn; [done|].
  intros Hnd Hx Hy Hf. apply NoDup_cons in Hnd as [Hnotin Hnd].
  rewrite list_elem_of_In in Hnotin.
  destruct Hx as [->|Hx], Hy as [->|Hy]; auto.
  - exfalso. apply Hnotin. rewrite Hf. by apply in_map.
  - exfalso. apply Hnotin. rewrite <- Hf. by apply in_map.
Qed.

Lemma count_find_users (sku_id name : string) (us : list user) :
  (length (filter (fun n => n = name) (find_users sku_id us []))
   <= length (filter (fun u => displayName u = name) us))%nat.
Proof.
  rewrite find_users_filter.
  induction us as [|u us IH]; [done|].
  rewrite (filter_cons (fun u => displayName u = name)).
  cbn [List.filter]. destruct (any_license_matches sku_id u).
  - cbn [map]. rewrite (filter_cons (fun n => n = name)).
    destruct (decide (displayName u = name)); cbn [length]; lia.
  - destruct (decide (displayName u = name)); cbn [length]; lia.
Qed.

Lemma no_field_no_match (sku_id : string) (u : user) :
  assignedLicenses u = None -> any_license_matches sku_id u = false.
Proof. unfold any_license_matches. by intros ->. Qed.

Lemma find_users_skip (sku_id : string) (us1 us2 : list user) (u : user) :
  any_license_matches sku_id u = false ->
  find_users sku_id (us1 ++ u :: us2) [] = find_users sku_id (us1 ++ us2) [].
Proof.
  intros Hu. rewrite !find_users_filter, !List.filter_app. cbn. by rewrite Hu.
Qed.

Lemma row_of_skip (fl : Q -> Q) (us1 us2 : list user) (u : user) (skus : list sku) :
  (forall sku_id, any_license_matches sku_id u = false) ->
  map (row_of fl (us1 ++ u :: us2)) skus = map (row_of fl (us1 ++ us2)) skus.
Proof.
  intros Hu. apply map_ext. intros s. unfold row_of.
  by rewrite find_users_skip.
Qed.

Section ListingClaims.

Variable fl : Q -> Q.

(** C1 (amended): a display name is in the user list of the row of a SKU
    exactly when some user with that display name has the id of the SKU
    among the assigned licenses; so every holder of the SKU is listed, and
    where the users have pairwise distinct display names a user is listed
    in exactly the rows of the SKUs assigned to that user. *)
Theorem listed_iff_some_holder (skus : list sku) (us : list user) :
  exists rows,
    analyze_licenses fl skus us = Return rows /\
    Forall2 (fun s r =>
       (forall name,
          In name (users r) <->
          exists u, In u us /\ displayName u = name /\
                    In (skuId s) (assigned_sku_ids u)) /\
       (forall u, In u us -> In (skuId s) (assigned_sku_ids u) ->
                  In (displayName u) (users r)) /\
       (NoDup (map displayName us) ->
        forall u, In u us ->
          (In (displayName u) (users r) <-> In (skuId s) (assigned_sku_ids u))))
      skus rows.
Proof.
  exists (map (row_of fl us) skus).
  split; [apply analyze_licenses_returns|].
  eapply Forall2_impl; [apply rows_Forall2|].
  intros s r ->. cbn. split; [|split].
  - intros name. apply In_find_users.
  - intros u Hin Hm. apply In_find_users. eauto.
  - intros Hnd u Hin. rewrite In_find_users. split.
    + intros (u' & Hin' & Hname & Hm).
      by rewrite <- (NoDup_map_injective displayName us u' u Hnd Hin' Hin Hname).
    + eauto.
Qed.

(** C10 (amended): a user list holds one entry per user record that has the
    SKU, however often the id is repeated in the assigned licenses of that
    record: the list is the display names of the holders in input order,
    and a name occurs in it at most as often as there are user records
    with that display name. *)
Theorem one_entry_per_holder (skus : list sku) (us : list user) :
  exists rows,
    analyze_licenses fl skus us = Return rows /\
    Forall2 (fun s r =>
       users r =
         map displayName
           (filter (fun u => skuId s ∈ assigned_sku_ids u) us) /\
       forall name,
         (length (filter (fun n => n = name) (users r))
          <= length (filter (fun u => displayName u = name) us))%nat)
      skus rows.
Proof.
  exists (map (row_of fl us) skus).
  split; [apply analyze_licenses_returns|].
  eapply Forall2_impl; [apply rows_Forall2|].
  intros s r ->. cbn. split.
  - rewrite find_users_filter. f_equal.
    induction us as [|u us' IH]; [done|].
    rewrite filter_cons, <- IH. cbn [List.filter].
    destruct (any_license_matches (skuId s) u) eqn:Hm.
    + apply any_license_matches_spec, list_elem_of_In in Hm.
      by rewrite decide_True.
    + rewrite decide_False; [done|].
      intros Hin%list_elem_of_In%any_license_matches_spec. congruence.
  - intros name. apply count_find_users.
Qed.

(** C9 (amended): a user record without the assigned-licenses key raises
    nothing and is analysed as if the key held an empty list, which is the
    same as leaving the record out: the record adds no entry to any user
    list, and its display name is in a row only if another user with the
    same display name has the SKU of that row. *)
Theorem missing_licenses_as_empty (skus : list sku) (us1 us2 : list user)
    (u : user) :
  assignedLicenses u = None ->
  analyze_licenses fl skus (us1 ++ u :: us2) =
    analyze_licenses fl skus
      (us1 ++ User (displayName u) (userPrincipalName u) (Some []) :: us2) /\
  analyze_licenses fl skus (us1 ++ u :: us2) =
    analyze_licenses fl skus (us1 ++ us2) /\
  exists rows,
    analyze_licenses fl skus (us1 ++ u :: us2) = Return rows /\
    Forall2 (fun s r =>
       In (displayName u) (users r) ->
       exists u', In u' (us1 ++ us2) /\ displayName u' = displayName u /\
                  In (skuId s) (assigned_sku_ids u'))
      skus rows.
Proof.
  intros Hnone.
  assert (Hskip : map (row_of fl (us1 ++ u :: us2)) skus =
                  map (row_of fl (us1 ++ us2)) skus).
  { apply row_of_skip. intros sku_id. by apply no_field_no_match. }
  rewrite !analyze_licenses_returns. split; [|split].
  - rewrite Hskip. symmetry. f_equal. by apply row_of_skip.
  - by rewrite Hskip.
  - eexists. split; [reflexivity|]. rewrite Hskip.
    eapply Forall2_impl; [apply rows_Forall2|].
    intros s r ->. cbn. intros Hin. by apply In_find_users in Hin.
Qed.

End ListingClaims.

(** C1, as stated, fails where two users share a display name: the name of
    a user without the SKU is in the row because a namesake has it. *)
Lemma listed_iff_holder_counterexample :
  exists r,
    analyze_licenses Qred [sku_a] [alice; alice_namesake] = Return [r] /\
    users r = ["Alice"] /\
    In alice_namesake [alice; alice_namesake] /\
    ~ (In (displayName alice_namesake) (users r) <->
       In (skuId sku_a) (assigned_sku_ids alice_namesake)).
Proof.
  eexists. split; [reflexivity|]. split; [reflexivity|].
  split; [cbn; auto|]. intros [Hcontra _].
  exact (Hcontra (or_introl eq_refl)).
Qed.

(** C10, as stated, fails where two users share a display name and both
    have the SKU: the name is listed twice. *)
Lemma name_at_most_once_counterexample :
  exists r,
    analyze_licenses Qred [sku_a] [alice; alice_holder] = Return [r] /\
    users r = ["Alice"; "Alice"] /\
    In alice [alice; alice_holder] /\
    ~ (length (filter (fun n => n = displayName alice) (users r)) <= 1)%nat.
Proof.
  eexists. split; [reflexivity|]. split; [reflexivity|].
  split; [cbn; auto|]. vm_compute. lia.
Qed.

(** C9, as stated, fails where a user with the SKU has the same display
    name as the user without the key. *)
Lemma missing_licenses_counterexample :
  exists r,
    analyze_licenses Qred [sku_a] [alice_no_field; alice] = Return [r] /\
    users r = ["Alice"] /\
    In alice_no_field [alice_no_field; alice] /\
    assignedLicenses alice_no_field = None /\
    In (displayName alice_no_field) (users r).
Proof.
  eexists. split; [reflexivity|]. split; [reflexivity|].
  split; [cbn; auto|]. split; [reflexivity|]. cbn. auto.
Qed.

Lemma missing_licenses_as_empty_witness :
  assignedLicenses alice_no_field = None /\
  analyze_licenses Qred [sku_a] ([bob] ++ alice_no_field :: [alice]) =
    analyze_licenses Qred [sku_a] ([bob] ++ [alice]).
Proof.
  split; [reflexivity|].
  apply (missing_licenses_as_empty Qred [sku_a] [bob] [alice]
           alice_no_field eq_refl).
Defined.

(** ** Report Writer: the summary sheet *)

Lemma append_data_rows_cells (license_data : list report_row) (ws : worksheet) :
  append_data_rows ws license_data =
  {| title := title ws;
     cells := (cells ws ++ map data_row license_data)%list |}.
Proof.
  unfold append_data_rows. revert ws.
  induction license_data as [|lic license_data IH]; intros ws; cbn.
  - rewrite app_nil_r. by destruct ws.
  - rewrite IH. cbn. by rewrite <- app_assoc.
Qed.

(** The loop invariant of the colour coding: the rows before the current
    one are coloured, the others are as appended. *)
Lemma color_code_invariant (license_data : list report_row) (t : string)
    (hd : list cell) (n k : nat) :
  (k + n)%nat = length license_data ->
  color_code (seq (2 + k) n) license_data
    {| title := t;
       cells := hd :: (map colored_row (take k license_data) ++
                       map data_row (drop k license_data))%list |} =
  Return {| title := t; cells := hd :: map colored_row license_data |}.
Proof.
  revert k. induction n as [|n IH]; intros k Hlen.
  - cbn. rewrite take_ge, drop_ge by lia. cbn. by rewrite app_nil_r.
  - destruct (lookup_lt_is_Some_2 license_data k) as [lic Hlic]; [lia|].
    cbn [seq color_code]. replace (2 + k - 2)%nat with k by lia.
    unfold index. rewrite Hlic. cbn [mbind result_bind].
    rewrite <- (IH (S k)) by lia. f_equal.
    unfold ws_update. cbn [title cells]. f_equal.
    replace (2 + k - 1)%nat with (S k) by lia. cbn [alter list_alter]. f_equal.
    rewrite (drop_S _ _ _ Hlic), (take_S_r _ _ _ Hlic).
    rewrite map_app, <- app_assoc. cbn [map app].
    assert (Hk : length (map colored_row (take k license_data)) = k).
    { rewrite length_map, length_take. lia. }
    replace k with (length (map colored_row (take k license_data)) + 0)%nat
      at 1 by lia.
    rewrite alter_app_r. reflexivity.
Qed.

Lemma create_excel_report_summary (license_data : list report_row) :
  create_excel_report license_data =
  Return ({| title := "License Summary";
             cells := header_row :: map colored_row license_data |},
          user_assignments license_data).
Proof.
  assert (E : style_header_row (ws_append (Worksheet "License Summary" []) headers)
              = Worksheet "License Summary" [header_row]) by reflexivity.
  unfold create_excel_report. cbv zeta. rewrite E, append_data_rows_cells.
  unfold range. replace (length license_data + 2 - 2)%nat
    with (length license_data) by lia.
  pose proof (color_code_invariant license_data "License Summary" header_row
                (length license_data) 0 eq_refl) as H.
  rewrite take_0, drop_0 in H. cbn [map app Nat.add] in H.
  cbn [title cells app]. rewrite H. reflexivity.
Qed.

(** C5: in the saved summary sheet the utilization cell of the i-th report
    row, at row i+2 and column 6, is filled red when the utilization is
    below 50, yellow when it is at least 50 and below 80, and green when it
    is at least 80; the three fills differ, 50 is yellow, 80 is green and
    49.9 is red. *)
Theorem utilization_colour_bands (license_data : list report_row) :
  exists ws ws2,
    create_excel_report license_data = Return (ws, ws2) /\
    (forall (i : nat) (lic : report_row),
       license_data !! i = Some lic ->
       exists c,
         ws_cell ws (i + 2) 6 = Some c /\
         value c = CText [FFixed 1 (utilization_pct lic); Lit "%"] /\
         let v := num_value (utilization_pct lic) in
         ((v < 50)%Q -> fill c = Some red_fill) /\
         ((50 <= v)%Q -> (v < 80)%Q -> fill c = Some yellow_fill) /\
         ((80 <= v)%Q -> fill c = Some green_fill)) /\
    red_fill <> yellow_fill /\ yellow_fill <> green_fill /\
    red_fill <> green_fill /\
    utilization_fill (PyFloat 50) = yellow_fill /\
    utilization_fill (PyFloat 80) = green_fill /\
    utilization_fill (PyFloat (499 # 10)) = red_fill.
Proof.
  eexists _, _. split; [apply create_excel_report_summary|].
  split; [|repeat split; done].
  intros i lic Hlic.
  exists (Cell (CText [FFixed 1 (utilization_pct lic); Lit "%"])
               (Some (utilization_fill (utilization_pct lic))) None None).
  assert (Hlow : forall (n : number) (k : Z),
            (num_value n < inject_Z k)%Q -> num_lt n k = true).
  { intros n k. apply num_lt_spec. }
  assert (Hhigh : forall (n : number) (k : Z),
            (inject_Z k <= num_value n)%Q -> num_lt n k = false).
  { intros n k. apply num_lt_false. }
  split; [|split; [done|]].
  - unfold ws_cell. cbn [cells].
    replace (i + 2 - 1)%nat with (S i) by lia.
    change (map colored_row license_data) with (colored_row <$> license_data).
    rewrite lookup_cons, list_lookup_fmap, Hlic. reflexivity.
  - cbn [fill]. unfold utilization_fill. split; [|split].
    + intros Hv. by rewrite (Hlow _ 50 Hv).
    + intros Hv1 Hv2. by rewrite (Hhigh _ 50 Hv1), (Hlow _ 80 Hv2).
    + intros Hv. rewrite (Hhigh _ 80 Hv), (Hhigh _ 50); [done|].
      eapply Qle_trans; [|exact Hv]. discriminate.
Qed.

(** ** Report Writer: the console summary *)

Lemma sum_acc (l : list Z) (a : Z) : foldl Z.add a l = a + sum l.
Proof.
  unfold sum. revert a. induction l as [|x l IH]; intros a; cbn; [lia|].
  rewrite (IH (a + x)), (IH (0 + x)). lia.
Qed.

Lemma sum_cons (x : Z) (l : list Z) : sum (x :: l) = x + sum l.
Proof. unfold sum at 1. cbn. apply sum_acc. Qed.

Lemma for_each_lines {A : Type} (l : list A) (body : A -> io unit)
    (g : A -> list piece) (out : console) :
  (forall x o, body x o = ((o ++ [g x])%list, Return tt)) ->
  for_each l body out = ((out ++ map g l)%list, Return tt).
Proof.
  intros Hbody. revert out. induction l as [|x l IH]; intros out; cbn.
  - by rewrite app_nil_r.
  - unfold mbind, io_bind. rewrite Hbody, IH. by rewrite <- app_assoc.
Qed.

Lemma sorted_reverse_nil_inv {A : Type} (key : A -> Z) (l : list A) :
  sorted_reverse key l = [] -> l = [].
Proof.
  destruct l as [|x l]; [done|]. unfold sorted_reverse. cbn [foldr].
  intros H. destruct (foldr (insert_reverse key) [] l) as [|y l'];
    cbn in H; [discriminate|].
  destruct (key x <? key y)%Z; discriminate.
Qed.

Section SummaryFacts.

Variable fl : Q -> Q.

Lemma print_summary_zero (license_data : list report_row) :
  sum (map total_licenses license_data) = 0 ->
  print_summary fl license_data [] =
  (summary_head license_data, Raise ZeroDivisionError).
Proof.
  intros HT. unfold print_summary, mbind, io_bind, print, lift, truediv.
  destruct (Z.eqb_spec (sum (map total_licenses license_data)) 0) as [_|Hne];
    [reflexivity | contradiction].
Qed.

Lemma print_summary_nonzero (license_data : list report_row) :
  sum (map total_licenses license_data) <> 0 ->
  print_summary fl license_data [] =
  ((summary_head license_data ++
    [ overall_line
        (fl (fl (inject_Z (sum (map assigned license_data)) /
                 inject_Z (sum (map total_licenses license_data))) * 100)%Q);
      [];
      [Lit "⚠️  LOW UTILIZATION LICENSES (Potential Cost Savings):"];
      [Lit (string_repeat "-" 70)] ] ++
    low_section (sorted_reverse available (low_util license_data)) ++
    [[Lit (string_repeat "=" 70)]])%list,
   Return tt).
Proof.
  intros HT. unfold print_summary, mbind, io_bind, print, lift, truediv.
  destruct (Z.eqb_spec (sum (map total_licenses license_data)) 0) as [|_];
    [done|].
  cbn [app]. destruct (low_util license_data) as [|lic rest] eqn:Hlow.
  - reflexivity.
  - rewrite (for_each_lines _ _ low_line) by done. unfold low_section.
    destruct (sorted_reverse available (lic :: rest)) eqn:Hs.
    + by apply sorted_reverse_nil_inv in Hs.
    + reflexivity.
Qed.

End SummaryFacts.

(** ** Sorting by descending key *)

Section SortedReverse.

Context {A : Type} (key : A -> Z).

Lemma insert_reverse_perm (x : A) (l : list A) :
  Permutation (insert_reverse key x l) (x :: l).
Proof.
  induction l as [|y l IH]; cbn; [done|].
  destruct (key x <? key y)%Z; [|done].
  rewrite IH. apply perm_swap.
Qed.

Lemma sorted_reverse_perm (l : list A) : Permutation (sorted_reverse key l) l.
Proof.
  induction l as [|x l IH]; cbn; [done|].
  fold (sorted_reverse key l). by rewrite insert_reverse_perm, IH.
Qed.

Lemma insert_reverse_sorted (x : A) (l : list A) :
  StronglySorted (fun a b => key b <= key a) l ->
  StronglySorted (fun a b => key b <= key a) (insert_reverse key x l).
Proof.
  induction 1 as [|y l Hs IH Hy]; cbn.
  - repeat constructor.
  - destruct (Z.ltb_spec (key x) (key y)) as [Hlt|Hge].
    + constructor; [exact IH|].
      rewrite insert_reverse_perm. constructor; [lia | exact Hy].
    + constructor; [by constructor|].
      constructor; [lia|].
      eapply Forall_impl; [exact Hy|]. cbn. intros z Hz. lia.
Qed.

Lemma sorted_reverse_sorted (l : list A) :
  StronglySorted (fun a b => key b <= key a) (sorted_reverse key l).
Proof.
  induction l as [|x l IH]; cbn; [constructor|].
  by apply insert_reverse_sorted.
Qed.

Lemma insert_reverse_other_key (k : Z) (x : A) (l : list A) :
  key x <> k ->
  filter (fun a => key a = k) (insert_reverse key x l) =
  filter (fun a => key a = k) l.
Proof.
  intros Hx. induction l as [|y l IH]; cbn [insert_reverse].
  - by rewrite filter_cons, decide_False.
  - destruct (key x <? key y)%Z.
    + by rewrite !(filter_cons _ y), IH.
    + by rewrite (filter_cons _ x), decide_False.
Qed.

Lemma insert_reverse_same_key (x : A) (l : list A) :
  filter (fun a => key a = key x) (insert_reverse key x l) =
  x :: filter (fun a => key a = key x) l.
Proof.
  induction l as [|y l IH]; cbn [insert_reverse].
  - by rewrite filter_cons, decide_True.
  - destruct (Z.ltb_spec (key x) (key y)) as [Hlt|Hge].
    + rewrite !(filter_cons _ y), IH.
      destruct (decide (key y = key x)); [lia | done].
    + by rewrite (filter_cons _ x), decide_True.
Qed.

(** The sort is stable: rows with the same key keep their input order. *)
Lemma sorted_reverse_stable (k : Z) (l : list A) :
  filter (fun a => key a = k) (sorted_reverse key l) =
  filter (fun a => key a = k) l.
Proof.
  induction l as [|x l IH]; [done|].
  unfold sorted_reverse. cbn [foldr]. fold (sorted_reverse key l).
  rewrite (filter_cons _ x). destruct (decide (key x = k)) as [<-|Hne].
  - by rewrite insert_reverse_same_key, IH.
  - by rewrite insert_reverse_other_key, IH.
Qed.

End SortedReverse.

Lemma low_util_filter (license_data : list report_row) :
  low_util license_data =
  filter (fun r => (num_value (utilization_pct r) < 70)%Q /\ 0 < total_licenses r)
         license_data.
Proof.
  unfold low_util.
  induction license_data as [|r l IH]; [done|].
  rewrite filter_cons, <- IH. cbn [List.filter].
  destruct (num_lt (utilization_pct r) 70) eqn:Hu; cbn [andb].
  - apply num_lt_spec in Hu.
    destruct (Z.gtb_spec (total_licenses r) 0) as [Hpos|Hnp].
    + by rewrite decide_True.
    + rewrite decide_False; [done | lia].
  - apply num_lt_false in Hu. rewrite decide_False; [done|].
    intros [Hlt _]. by apply Qle_not_lt in Hu.
Qed.

Section SummaryClaims.

Variable fl : Q -> Q.

(** C4: the overall utilization printed by the console summary is the
    float computed as (sum of assigned) / (sum of total) * 100; when the sum
    of the totals is 0 the division raises [ZeroDivisionError] after the
    three totals have been printed, so that neither an overall-utilization
    line nor any later line is printed. *)
Theorem overall_utilization_unguarded (license_data : list report_row) :
  let total := sum (map total_licenses license_data) in
  let assigned_sum := sum (map assigned license_data) in
  let overall := fl (fl (inject_Z assigned_sum / inject_Z total) * 100)%Q in
  (total = 0 ->
     truediv fl assigned_sum total = Raise ZeroDivisionError /\
     print_summary fl license_data [] =
       (summary_head license_data, Raise ZeroDivisionError) /\
     Forall (fun l => forall v, l <> overall_line v) (summary_head license_data)) /\
  (total <> 0 ->
     exists rest,
       print_summary fl license_data [] =
         ((summary_head license_data ++ overall_line overall :: rest)%list,
          Return tt) /\
       forall eps, standard_model fl eps ->
         (Qabs (overall - inject_Z assigned_sum / inject_Z total * 100)
          <= (2 * eps + eps * eps) *
             Qabs (inject_Z assigned_sum / inject_Z total * 100))%Q).
Proof.
  cbv zeta. split.
  - intros HT. split; [by unfold truediv; rewrite HT|].
    split; [by apply print_summary_zero|].
    unfold summary_head, overall_line. repeat constructor; intros v; discriminate.
  - intros HT. eexists. split.
    + rewrite print_summary_nonzero by done. reflexivity.
    + intros eps Hstd. by apply percentage_tolerance.
Qed.

(** C6: the low-utilization list of the console summary holds exactly the
    report rows with a utilization below 70 and a total above 0, each as
    often as it occurs in the report, in descending order of the available
    count; these are the lines that the summary prints for the list. *)
Theorem low_utilization_list (license_data : list report_row) :
  let shown := sorted_reverse available (low_util license_data) in
  Permutation shown
    (filter (fun r => (num_value (utilization_pct r) < 70)%Q /\
                      0 < total_licenses r) license_data) /\
  (forall r, In r shown <->
             In r license_data /\
             (num_value (utilization_pct r) < 70)%Q /\ 0 < total_licenses r) /\
  StronglySorted (fun a b => available b <= available a) shown /\
  (sum (map total_licenses license_data) <> 0 ->
   exists before,
     length before = 10%nat /\
     print_summary fl license_data [] =
       ((before ++ low_section shown ++ [[Lit (string_repeat "=" 70)]])%list,
        Return tt)).
Proof.
  cbv zeta.
  assert (Hperm : Permutation (sorted_reverse available (low_util license_data))
            (filter (fun r => (num_value (utilization_pct r) < 70)%Q /\
                              0 < total_licenses r) license_data)).
  { rewrite sorted_reverse_perm. by rewrite low_util_filter. }
  split; [exact Hperm|]. split; [|split].
  - intros r. rewrite <- !list_elem_of_In, Hperm, list_elem_of_filter. tauto.
  - apply sorted_reverse_sorted.
  - intros HT. eexists. split; [|rewrite print_summary_nonzero by done].
    2: { rewrite app_assoc. reflexivity. }
    reflexivity.
Qed.

End SummaryClaims.

(** ** The scenarios of the specification, with exact arithmetic *)

Example scenario_one_sku :
  analyze_licenses Qred [sku_a] [alice; bob] =
  Return [ {| license_name := "Microsoft 365 E3";
              sku_code := "SPE_E3";
              total_licenses := 100;
              assigned := 40;
              available := 60;
              utilization_pct := PyFloat 40;
              users := ["Alice"] |} ].
Proof. reflexivity. Qed.

Example scenario_one_sku_low_line :
  (print_summary Qred (map (row_of Qred [alice; bob]) [sku_a]) []).1 !! 10%nat =
  Some [ FStrW 40 "Microsoft 365 E3"; Lit " | "; FIntW 3 60;
         Lit " unused ("; FFixed 0 (PyFloat 40); Lit "% utilization)" ].
Proof. reflexivity. Qed.

Example scenario_nothing_enabled :
  analyze_licenses Qred [sku_b] [alice; bob] =
  Return [ {| license_name := "UNLISTED";
              sku_code := "UNLISTED";
              total_licenses := 0;
              assigned := 0;
              available := 0;
              utilization_pct := PyInt 0;
              users := [] |} ] /\
  low_util (map (row_of Qred [alice; bob]) [sku_b]) = [] /\
  (print_summary Qred (map (row_of Qred [alice; bob]) [sku_b]) []).2 =
  Raise ZeroDivisionError.
Proof. repeat split. Qed.

Example scenario_aggregate :
  let license_data :=
    map (row_of Qred [])
      [ Sku "A" "SPE_E3" (PrepaidUnits 100) 40;
        Sku "B" "SPE_E5" (PrepaidUnits 50) 50 ] in
  take 4 (drop 3 (print_summary Qred license_data []).1) =
  [ [Lit "Total Licenses Purchased:  "; FInt 150];
    [Lit "Total Assigned:            "; FInt 90];
    [Lit "Total Available (Unused):  "; FInt 60];
    [Lit "Overall Utilization:       "; FFixed 1 (PyFloat 60); Lit "%"] ].
Proof. reflexivity. Qed.

Example scenario_overassigned :
  analyze_licenses Qred [Sku "A" "FLOW_FREE" (PrepaidUnits 5) 8] [] =
  Return [ {| license_name := "Power Automate Free";
              sku_code := "FLOW_FREE";
              total_licenses := 5;
              assigned := 8;
              available := -3;
              utilization_pct := PyFloat 160;
              users := [] |} ].
Proof. reflexivity. Qed.

Example scenario_repeated_license :
  find_users "A"
    [ User "Dana" "dana@example.org" (Some [License "A"; License "B"; License "A"]);
      alice_no_field; bob ] [] = ["Dana"].
Proof. reflexivity. Qed.

Example scenario_sorted_ties :
  sorted_reverse fst [(1, "a"); (3, "b"); (1, "c"); (3, "d"); (2, "e")] =
  [(3, "b"); (3, "d"); (2, "e"); (1, "a"); (1, "c")].
Proof. reflexivity. Qed.

(** * Further properties of the code *)

(** ** License Namer *)

Lemma friendly_name_known_fixed (code : string) :
  code ∈ license_table.*1 ->
  get_friendly_license_name code ∉ license_table.*1.
Proof.
  intros Hin. unfold license_table in Hin. cbn in Hin.
  repeat (apply elem_of_cons in Hin as [->|Hin];
          [apply (bool_decide_unpack _); vm_compute; exact I|]).
  by apply elem_of_nil in Hin.
Qed.

(** X1: no friendly name is itself a known code, so naming twice is naming
    once. *)
Theorem friendly_name_idempotent (sku_part_number : string) :
  get_friendly_license_name (get_friendly_license_name sku_part_number) =
  get_friendly_license_name sku_part_number.
Proof.
  destruct (decide (sku_part_number ∈ license_table.*1)) as [Hin|Hout].
  - apply friendly_name_unknown. by apply friendly_name_known_fixed.
  - by rewrite !(friendly_name_unknown sku_part_number Hout).
Qed.

(** X2: two different known codes never share a friendly name. *)
Theorem friendly_name_injective_on_known (code1 code2 : string) :
  code1 ∈ license_table.*1 -> code2 ∈ license_table.*1 ->
  get_friendly_license_name code1 = get_friendly_license_name code2 ->
  code1 = code2.
Proof.
  intros H1 H2.
  assert (Hall : Forall (fun c1 => Forall (fun c2 =>
            get_friendly_license_name c1 = get_friendly_license_name c2 ->
            c1 = c2) license_table.*1) license_table.*1).
  { apply (bool_decide_unpack _). vm_compute. exact I. }
  rewrite Forall_forall in Hall. specialize (Hall code1 H1).
  rewrite Forall_forall in Hall. exact (Hall code2 H2).
Qed.

Lemma friendly_name_injective_on_known_witness :
  "SPE_E3" ∈ license_table.*1 /\ "SPE_E3" ∈ license_table.*1 /\
  get_friendly_license_name "SPE_E3" = get_friendly_license_name "SPE_E3" /\
  "SPE_E3" = "SPE_E3".
Proof.
  assert (Hin : "SPE_E3" ∈ license_table.*1).
  { apply (bool_decide_unpack _). vm_compute. exact I. }
  split; [exact Hin|]. split; [exact Hin|]. split; [reflexivity|].
  exact (friendly_name_injective_on_known "SPE_E3" "SPE_E3" Hin Hin eq_refl).
Defined.

(** ** Analyzer *)

Section AnalyzerExtras.

Variable fl : Q -> Q.

(** X3: the rows of a SKU do not depend on the other SKUs of the list: the
    analysis of a concatenation is the concatenation of the analyses, and
    the analysis of no SKU is the empty report. *)
Theorem analyze_licenses_app (skus1 skus2 : list sku) (us : list user) :
  analyze_licenses fl [] us = Return [] /\
  exists rows1 rows2,
    analyze_licenses fl skus1 us = Return rows1 /\
    analyze_licenses fl skus2 us = Return rows2 /\
    analyze_licenses fl (skus1 ++ skus2) us = Return (rows1 ++ rows2)%list.
Proof.
  split; [reflexivity|].
  exists (map (row_of fl us) skus1), (map (row_of fl us) skus2).
  rewrite !analyze_licenses_returns. by rewrite map_app.
Qed.

Lemma rows_lookup (skus : list sku) (us : list user) (i : nat) (s : sku) :
  skus !! i = Some s -> map (row_of fl us) skus !! i = Some (row_of fl us s).
Proof.
  intros Hs. change (map (row_of fl us) skus) with (row_of fl us <$> skus).
  by rewrite list_lookup_fmap, Hs.
Qed.

(** X4: a SKU whose enabled count is zero or negative is never divided by: its
    utilization is the integer 0, its cell in the summary sheet is red, and
    it is not in the low-utilization list. *)
Theorem nothing_enabled_row (skus : list sku) (us : list user) (i : nat)
    (s : sku) :
  skus !! i = Some s ->
  enabled (prepaidUnits s) <= 0 ->
  exists rows r ws ws2 c,
    analyze_licenses fl skus us = Return rows /\
    rows !! i = Some r /\
    utilization_pct r = PyInt 0 /\
    create_excel_report rows = Return (ws, ws2) /\
    ws_cell ws (i + 2) 6 = Some c /\
    fill c = Some red_fill /\
    ~ In r (low_util rows).
Proof.
  intros Hs Hle.
  assert (Hu : utilization_pct (row_of fl us s) = PyInt 0).
  { cbn. unfold utilization_value.
    by destruct (Z.gtb_spec (enabled (prepaidUnits s)) 0); [lia|]. }
  exists (map (row_of fl us) skus), (row_of fl us s).
  eexists _, _, _. split; [apply analyze_licenses_returns|].
  split; [by apply rows_lookup|]. split; [exact Hu|].
  split; [apply create_excel_report_summary|]. split; [|split].
  - unfold ws_cell. cbn [cells].
    replace (i + 2 - 1)%nat with (S i) by lia.
    change (map colored_row (map (row_of fl us) skus))
      with (colored_row <$> map (row_of fl us) skus).
    rewrite lookup_cons, list_lookup_fmap, (rows_lookup _ _ _ _ Hs).
    reflexivity.
  - cbn [fill]. by rewrite Hu.
  - unfold low_util. rewrite filter_In. intros [_ Hf].
    apply andb_prop in Hf as [_ Hf]. cbn in Hf.
    apply Z.gtb_lt in Hf. lia.
Qed.

(** X5: the three totals of the console summary fit together for an analyzed
    report: the available total that is printed is the purchased total
    minus the assigned total. *)
Theorem summary_totals_consistent (skus : list sku) (us : list user) :
  exists rows,
    analyze_licenses fl skus us = Return rows /\
    sum (map available rows) =
      sum (map total_licenses rows) - sum (map assigned rows) /\
    (print_summary fl rows []).1 !! 5%nat =
      Some [ Lit "Total Available (Unused):  ";
             FInt (sum (map total_licenses rows) - sum (map assigned rows)) ].
Proof.
  exists (map (row_of fl us) skus).
  split; [apply analyze_licenses_returns|].
  assert (Hsum : sum (map available (map (row_of fl us) skus)) =
                 sum (map total_licenses (map (row_of fl us) skus)) -
                 sum (map assigned (map (row_of fl us) skus))).
  { induction skus as [|s skus IH]; [done|].
    cbn [map]. rewrite !sum_cons, IH. cbn. lia. }
  split; [exact Hsum|]. rewrite <- Hsum.
  destruct (Z.eq_dec (sum (map total_licenses (map (row_of fl us) skus))) 0)
    as [HT|HT].
  - by rewrite print_summary_zero.
  - by rewrite print_summary_nonzero.
Qed.

End AnalyzerExtras.

Lemma nothing_enabled_row_witness :
  [sku_a; sku_b] !! 1%nat = Some sku_b /\
  enabled (prepaidUnits sku_b) <= 0 /\
  exists rows r ws ws2 c,
    analyze_licenses Qred [sku_a; sku_b] [alice; bob] = Return rows /\
    rows !! 1%nat = Some r /\
    utilization_pct r = PyInt 0 /\
    create_excel_report rows = Return (ws, ws2) /\
    ws_cell ws (1 + 2) 6 = Some c /\
    fill c = Some red_fill /\
    ~ In r (low_util rows).
Proof.
  split; [reflexivity|]. split; [cbn; lia|].
  apply (nothing_enabled_row Qred [sku_a; sku_b] [alice; bob] 1 sku_b eq_refl).
  cbn. lia.
Defined.

(** ** The low-utilization list of an analyzed report *)

Lemma ratio_ge_one (c e : Z) :
  0 < e -> e <= c -> (1 <= inject_Z c / inject_Z e)%Q.
Proof.
  intros He Hc. apply Qle_shift_div_l.
  - replace 0%Q with (inject_Z 0) by reflexivity. by rewrite <- Zlt_Qlt.
  - rewrite Qmult_1_l. by rewrite <- Zle_Qle.
Qed.

(** X6: where rounding errors are small (the tolerance [2*eps + eps^2] is at
    most 3/10), every row of the low-utilization list of an analyzed report
    has unused licenses: its available count is at least 1. *)
Theorem low_utilization_has_unused (fl : Q -> Q) (eps : Q) (skus : list sku)
    (us : list user) :
  standard_model fl eps ->
  (2 * eps + eps * eps <= 3 # 10)%Q ->
  exists rows,
    analyze_licenses fl skus us = Return rows /\
    forall r, In r (low_util rows) -> 1 <= available r.
Proof.
  intros Hstd Heps. exists (map (row_of fl us) skus).
  split; [apply analyze_licenses_returns|].
  intros r Hr. unfold low_util in Hr. apply filter_In in Hr as [Hin Hf].
  apply in_map_iff in Hin as (s & <- & _).
  apply andb_prop in Hf as [Hu Ht]. cbn in Ht, Hu |- *.
  apply Z.gtb_lt in Ht. apply num_lt_spec in Hu.
  unfold utilization_value in Hu.
  destruct (Z.gtb_spec (enabled (prepaidUnits s)) 0) as [_|]; [|lia].
  cbn in Hu. unfold float_mul_int in Hu.
  destruct (Z_lt_le_dec (consumedUnits s) (enabled (prepaidUnits s)))
    as [Hlt|Hge]; [lia|]. exfalso.
  pose proof (ratio_ge_one _ _ Ht Hge) as Ha.
  pose proof (percentage_tolerance fl eps
                (inject_Z (consumedUnits s) / inject_Z (enabled (prepaidUnits s)))
                Hstd) as Htol.
  change (inject_Z 100) with 100%Q in Hu. change (inject_Z 70) with 70%Q in Hu.
  revert Ha Hu Htol.
  generalize (inject_Z (consumedUnits s) / inject_Z (enabled (prepaidUnits s)))%Q.
  intros a Ha. generalize (fl (fl a * 100))%Q. intros v Hv Htol.
  rewrite (Qabs_pos (a * 100)) in Htol by nra.
  apply Qabs_Qle_condition in Htol as [Hlow _].
  nra.
Qed.

Lemma low_utilization_has_unused_witness :
  standard_model Qred (1 # 9007199254740992) /\
  (2 * (1 # 9007199254740992) + (1 # 9007199254740992) * (1 # 9007199254740992)
   <= 3 # 10)%Q /\
  exists rows,
    analyze_licenses Qred [sku_a; sku_b] [alice; bob] = Return rows /\
    forall r, In r (low_util rows) -> 1 <= available r.
Proof.
  assert (Hstd : standard_model Qred (1 # 9007199254740992)).
  { apply exact_arithmetic_standard; [discriminate | apply Qred_correct]. }
  assert (Heps : (2 * (1 # 9007199254740992) +
                  (1 # 9007199254740992) * (1 # 9007199254740992)
                  <= 3 # 10)%Q) by (vm_compute; discriminate).
  split; [exact Hstd|]. split; [exact Heps|].
  exact (low_utilization_has_unused Qred _ [sku_a; sku_b] [alice; bob] Hstd Heps).
Defined.

(** ** When the console summary raises *)

Lemma sum_nonneg_zero (l : list Z) :
  Forall (fun x => 0 <= x) l -> (sum l = 0 <-> Forall (fun x => x = 0) l).
Proof.
  induction 1 as [|x l Hx Hl IH].
  - split; [constructor | reflexivity].
  - rewrite sum_cons.
    assert (Hs : 0 <= sum l).
    { clear IH. induction Hl as [|y l Hy Hl IH]; [done|]. rewrite sum_cons. lia. }
    split.
    + intros Hz. constructor; [lia|]. apply IH. lia.
    + intros Hz. apply Forall_cons in Hz as [-> Hz]. apply IH in Hz. lia.
Qed.

Lemma some_total_positive (license_data : list report_row) :
  Forall (fun r => 0 <= total_licenses r) license_data ->
  (Exists (fun r => 0 < total_licenses r) license_data <->
   ~ Forall (fun r => total_licenses r = 0) license_data).
Proof.
  induction 1 as [|r l Hr Hl IH].
  - rewrite Exists_nil. split; [done|]. intros H. apply H. constructor.
  - rewrite Exists_cons, Forall_cons, IH. split.
    + intros [Hpos|Hne] [Hz Hall]; [lia | by apply Hne].
    + intros Hn. destruct (Z.eq_dec (total_licenses r) 0) as [Hz|Hnz].
      * right. intros Hall. apply Hn. by split.
      * left. lia.
Qed.

(** X7: for a report without negative totals the console summary raises
    [ZeroDivisionError] exactly when every total is 0, which includes the
    empty report; in every other case it runs to its last line. *)
Theorem print_summary_raises_iff (fl : Q -> Q) (license_data : list report_row) :
  Forall (fun r => 0 <= total_licenses r) license_data ->
  ((print_summary fl license_data []).2 = Raise ZeroDivisionError <->
   Forall (fun r => total_licenses r = 0) license_data) /\
  ((print_summary fl license_data []).2 = Return tt <->
   Exists (fun r => 0 < total_licenses r) license_data) /\
  (Exists (fun r => 0 < total_licenses r) license_data ->
   last (print_summary fl license_data []).1 =
     Some [Lit (string_repeat "=" 70)]).
Proof.
  intros Hwf.
  assert (Hz : sum (map total_licenses license_data) = 0 <->
               Forall (fun r => total_licenses r = 0) license_data).
  { rewrite sum_nonneg_zero, Forall_map; [done|]. by rewrite Forall_map. }
  rewrite (some_total_positive _ Hwf), <- Hz.
  destruct (Z.eq_dec (sum (map total_licenses license_data)) 0) as [HT|HT].
  - rewrite print_summary_zero by done. cbn [snd].
    split; [done|]. split; [|done]. split; [discriminate | done].
  - rewrite print_summary_nonzero by done. cbn [fst snd].
    split; [split; [discriminate | done]|]. split; [done|].
    intros _. by rewrite !app_assoc, last_snoc.
Qed.

Lemma print_summary_raises_iff_witness :
  Forall (fun r => 0 <= total_licenses r)
         (map (row_of Qred [alice; bob]) [sku_a; sku_b]) /\
  (print_summary Qred (map (row_of Qred [alice; bob]) [sku_a; sku_b]) []).2 =
    Return tt.
Proof.
  assert (Hwf : Forall (fun r => 0 <= total_licenses r)
                  (map (row_of Qred [alice; bob]) [sku_a; sku_b])).
  { repeat constructor; cbn; lia. }
  split; [exact Hwf|].
  apply (print_summary_raises_iff Qred _ Hwf).
  apply Exists_cons. left. cbn. lia.
Defined.

(** X8: rows of the low-utilization list that have the same available count
    are printed in the order in which they stand in the report. *)
Theorem low_utilization_ties_in_report_order (license_data : list report_row)
    (k : Z) :
  filter (fun r => available r = k)
         (sorted_reverse available (low_util license_data)) =
  filter (fun r => available r = k /\
                   (num_value (utilization_pct r) < 70)%Q /\
                   0 < total_licenses r)
         license_data.
Proof.
  rewrite sorted_reverse_stable, low_util_filter, list_filter_filter.
  reflexivity.
Qed.

(** ** The workbook *)

Lemma append_assignments (lic : report_row) (us : list string) (w : worksheet) :
  foldl (fun w' u => ws_append w' [CStr (license_name lic); CStr u]) w us =
  {| title := title w;
     cells := (cells w ++
               map (fun u => [ Cell (CStr (license_name lic)) None None None;
                               Cell (CStr u) None None None ]) us)%list |}.
Proof.
  revert w. induction us as [|u us IH]; intros w; cbn.
  - rewrite app_nil_r. by destruct w.
  - rewrite IH. cbn. by rewrite <- app_assoc.
Qed.

Lemma append_all_assignments (license_data : list report_row) (w : worksheet) :
  foldl (fun w lic =>
           foldl (fun w' u => ws_append w' [CStr (license_name lic); CStr u])
                 w (users lic))
        w license_data =
  {| title := title w;
     cells := (cells w ++ flat_map assignment_rows license_data)%list |}.
Proof.
  revert w. induction license_data as [|lic l IH]; intros w; cbn.
  - rewrite app_nil_r. by destruct w.
  - rewrite IH, append_assignments. cbn. by rewrite <- app_assoc.
Qed.

Lemma user_assignments_cells (license_data : list report_row) :
  user_assignments license_data =
  {| title := "User Assignments";
     cells := assignments_header :: flat_map assignment_rows license_data |}.
Proof.
  unfold user_assignments. cbv zeta. by rewrite append_all_assignments.
Qed.


(** X10: the colour coding touches nothing but the fill of the sixth column:
    the row of the i-th report row holds the six appended values, the
    first five cells without any style. *)
Theorem summary_sheet_data_row (license_data : list report_row) (i : nat)
    (lic : report_row) :
  license_data !! i = Some lic ->
  exists ws ws2,
    create_excel_report license_data = Return (ws, ws2) /\
    cells ws !! S i =
      Some [ Cell (CStr (license_name lic)) None None None;
             Cell (CStr (sku_code lic)) None None None;
             Cell (CInt (total_licenses lic)) None None None;
             Cell (CInt (assigned lic)) None None None;
             Cell (CInt (available lic)) None None None;
             Cell (CText [FFixed 1 (utilization_pct lic); Lit "%"])
                  (Some (utilization_fill (utilization_pct lic))) None None ].
Proof.
  intros Hlic. eexists _, _. split; [apply create_excel_report_summary|].
  cbn [cells].
  change (map colored_row license_data) with (colored_row <$> license_data).
  by rewrite lookup_cons, list_lookup_fmap, Hlic.
Qed.

(** X11: the second sheet holds, below its header, one row per pair of a report
    row and a user of its user list, in report order and then in list
    order; so it has one row more than there are such pairs. *)
Theorem user_assignments_sheet (license_data : list report_row) :
  exists ws ws2,
    create_excel_report license_data = Return (ws, ws2) /\
    title ws2 = "User Assignments" /\
    cells ws2 = assignments_header :: flat_map assignment_rows license_data /\
    length (cells ws2) =
      S (sum_list (map (fun lic => length (users lic)) license_data)).
Proof.
  eexists _, _. split; [apply create_excel_report_summary|].
  rewrite user_assignments_cells. cbn [title cells].
  split; [done|]. split; [done|]. cbn [length]. f_equal.
  induction license_data as [|lic l IH]; [done|].
  cbn [flat_map map sum_list sum_list_with]. rewrite length_app, IH.
  unfold assignment_rows. by rewrite length_map.
Qed.

Lemma summary_sheet_data_row_witness :
  map (row_of Qred [alice; bob]) [sku_a; sku_b] !! 0%nat =
    Some (row_of Qred [alice; bob] sku_a) /\
  exists ws ws2,
    create_excel_report (map (row_of Qred [alice; bob]) [sku_a; sku_b]) =
      Return (ws, ws2) /\
    cells ws !! 1%nat =
      Some [ Cell (CStr "Microsoft 365 E3") None None None;
             Cell (CStr "SPE_E3") None None None;
             Cell (CInt 100) None None None;
             Cell (CInt 40) None None None;
             Cell (CInt 60) None None None;
             Cell (CText [FFixed 1 (PyFloat 40); Lit "%"])
                  (Some red_fill) None None ].
Proof.
  split; [reflexivity|].
  exact (summary_sheet_data_row
           (map (row_of Qred [alice; bob]) [sku_a; sku_b]) 0
           (row_of Qred [alice; bob] sku_a) eq_refl).
Defined.

(** ** The entry point *)

Section SummaryFromAnyConsole.

Variable fl : Q -> Q.

Lemma print_summary_extends (license_data : list report_row) (out : console) :
  print_summary fl license_data out =
  ((out ++ (print_summary fl license_data []).1)%list,
   (print_summary fl license_data []).2).
Proof.
  destruct (Z.eq_dec (sum (map total_licenses license_data)) 0) as [HT|HT].
  - rewrite (print_summary_zero fl _ HT). cbn [fst snd].
    unfold print_summary, mbind, io_bind, print, lift, truediv.
    destruct (Z.eqb_spec (sum (map total_licenses license_data)) 0) as [_|Hne];
      [|contradiction].
    rewrite <- !app_assoc. reflexivity.
  - rewrite (print_summary_nonzero fl _ HT). cbn [fst snd].
    unfold print_summary, mbind, io_bind, print, lift, truediv.
    destruct (Z.eqb_spec (sum (map total_licenses license_data)) 0) as [|_];
      [done|].
    destruct (low_util license_data) as [|lic rest] eqn:Hlow.
    + rewrite <- !app_assoc. reflexivity.
    + rewrite (for_each_lines _ _ low_line) by done. unfold low_section.
      destruct (sorted_reverse available (lic :: rest)) eqn:Hs.
      * by apply sorted_reverse_nil_inv in Hs.
      * rewrite <- !app_assoc. reflexivity.
Qed.

End SummaryFromAnyConsole.

Section StageRuns.

Variable fl : Q -> Q.
Variable env : environment.

Lemma get_access_token_run (w : world) :
  exists lines,
    get_access_token env w =
    (World (stdout w ++ lines)%list (requested w) (saved w),
     Return (token_result env !! "access_token")).
Proof.
  unfold get_access_token, mbind, proc_bind, say, mret, proc_ret.
  cbn [stdout requested saved].
  destruct (token_result env !! "access_token");
    eexists; cbn [stdout requested saved]; rewrite <- app_assoc; reflexivity.
Qed.

Lemma get_subscribed_skus_run (token : string) (w : world) :
  exists lines,
    get_subscribed_skus env token w =
    (World (stdout w ++ lines)%list (requested w ++ [skus_url])%list (saved w),
     Return (fetched (get_skus env token))).
Proof.
  unfold get_subscribed_skus, mbind, proc_bind, say, request, mret, proc_ret.
  cbn [stdout requested saved].
  destruct (get_skus env token);
    eexists; cbn [stdout requested saved fetched]; rewrite <- app_assoc;
    reflexivity.
Qed.

Lemma get_users_with_licenses_run (token : string) (w : world) :
  exists lines,
    get_users_with_licenses env token w =
    (World (stdout w ++ lines)%list (requested w ++ [users_url])%list (saved w),
     Return (fetched (get_users env token))).
Proof.
  unfold get_users_with_licenses, mbind, proc_bind, say, request, mret, proc_ret.
  cbn [stdout requested saved].
  destruct (get_users env token);
    eexists; cbn [stdout requested saved fetched]; rewrite <- app_assoc;
    reflexivity.
Qed.

Lemma analyze_licenses_proc_run (skus : list sku) (us : list user) (w : world) :
  exists lines,
    analyze_licenses_proc fl skus us w =
    (World (stdout w ++ lines)%list (requested w) (saved w),
     Return (map (row_of fl us) skus)).
Proof.
  unfold analyze_licenses_proc, mbind, proc_bind, say, lift_result, mret, proc_ret.
  rewrite analyze_licenses_returns. cbn [stdout requested saved].
  eexists. rewrite <- app_assoc. reflexivity.
Qed.

Lemma create_excel_report_proc_run (license_data : list report_row) (w : world) :
  exists lines,
    create_excel_report_proc env license_data w =
    (World (stdout w ++ lines)%list (requested w)
       (saved w ++
        [(report_filename env,
          ({| title := "License Summary";
              cells := header_row :: map colored_row license_data |},
           user_assignments license_data))])%list,
     Return (report_filename env)).
Proof.
  unfold create_excel_report_proc, mbind, proc_bind, say, save, lift_result,
    mret, proc_ret.
  rewrite create_excel_report_summary. cbn [stdout requested saved].
  eexists. rewrite <- app_assoc. reflexivity.
Qed.

End StageRuns.

Ltac run_stage f lem :=
  match goal with
  | |- context [f ?w] =>
      let lines := fresh "lines" in
      let H := fresh "Hrun" in
      destruct (lem w) as (lines & H); rewrite H; clear H;
      cbn [stdout requested saved app]
  end.

Section MainFacts.

Variable fl : Q -> Q.
Variable env : environment.

(** What a run of [main] from the initial world comes to, stage by
    stage. *)
Lemma main_cases :
  exists out : console,
    main fl env initial_world =
    match usable_token env with
    | None =>
        (World (out ++ [[Lit "Failed to authenticate. Check your .env file credentials."]])%list
           [] [], Return tt)
    | Some t =>
        match fetched (get_skus env t) with
        | [] =>
            (World (out ++ [[Lit "No licenses found or error retrieving licenses."]])%list
               [skus_url] [], Return tt)
        | (_ :: _) as skus =>
            match fetched (get_users env t) with
            | [] =>
                (World (out ++ [[Lit "No users found or error retrieving users."]])%list
                   [skus_url; users_url] [], Return tt)
            | (_ :: _) as us =>
                let license_data := map (row_of fl us) skus in
                (World (out ++ (print_summary fl license_data []).1)%list
                   [skus_url; users_url]
                   [(report_filename env,
                     ({| title := "License Summary";
                         cells := header_row :: map colored_row license_data |},
                      user_assignments license_data))],
                 (print_summary fl license_data []).2)
            end
        end
    end.
Proof.
  unfold main, usable_token.
  unfold mbind at 1 2 3 4. unfold proc_bind at 1 2 3 4.
  unfold say at 1 2 3. cbn [stdout requested saved initial_world app].
  run_stage (get_access_token env) (get_access_token_run env).
  destruct (token_result env !! "access_token") as [[|c t]|].
  - eexists. unfold say. cbn [stdout requested saved]. reflexivity.
  - unfold mbind at 1. unfold proc_bind at 1.
    run_stage (get_subscribed_skus env (String c t))
              (get_subscribed_skus_run env (String c t)).
    destruct (fetched (get_skus env (String c t))) as [|s skus].
    + eexists. unfold say. cbn [stdout requested saved]. reflexivity.
    + unfold mbind at 1. unfold proc_bind at 1.
      run_stage (get_users_with_licenses env (String c t))
                (get_users_with_licenses_run env (String c t)).
      destruct (fetched (get_users env (String c t))) as [|u us].
      * eexists. unfold say. cbn [stdout requested saved]. reflexivity.
      * unfold mbind at 1. unfold proc_bind at 1.
        run_stage (analyze_licenses_proc fl (s :: skus) (u :: us))
                  (analyze_licenses_proc_run fl (s :: skus) (u :: us)).
        unfold mbind at 1. unfold proc_bind at 1.
        run_stage (create_excel_report_proc env (map (row_of fl (u :: us)) (s :: skus)))
                  (create_excel_report_proc_run env (map (row_of fl (u :: us)) (s :: skus))).
        unfold lift_io. cbn [stdout requested saved].
        rewrite print_summary_extends. cbv zeta. eexists. reflexivity.
  - eexists. unfold say. cbn [stdout requested saved]. reflexivity.
Qed.

End MainFacts.



Section MainClaims.

Variable fl : Q -> Q.
Variable env : environment.

(** X12: a failed stage ends the run at once: [main] prints the message of that
    stage last, sends no further request, saves no workbook and returns
    normally.  The stages are the token (absent or empty), the SKU list
    (request failed or empty) and the user list (request failed or
    empty). *)
Theorem main_early_exit :
  report_inputs env = None ->
  let w := (main fl env initial_world).1 in
  (main fl env initial_world).2 = Return tt /\
  saved w = [] /\
  match usable_token env with
  | None =>
      requested w = [] /\
      last (stdout w) =
        Some [Lit "Failed to authenticate. Check your .env file credentials."]
  | Some t =>
      match fetched (get_skus env t) with
      | [] =>
          requested w = [skus_url] /\
          last (stdout w) =
            Some [Lit "No licenses found or error retrieving licenses."]
      | _ :: _ =>
          requested w = [skus_url; users_url] /\
          last (stdout w) =
            Some [Lit "No users found or error retrieving users."]
      end
  end.
Proof.
  intros Hnone. cbv zeta. destruct (main_cases fl env) as (out & ->).
  unfold report_inputs in Hnone.
  destruct (usable_token env) as [t|].
  - destruct (fetched (get_skus env t)) as [|s skus].
    + cbn. by rewrite last_snoc.
    + destruct (fetched (get_users env t)) as [|u us]; [|done].
      cbn. by rewrite last_snoc.
  - cbn. by rewrite last_snoc.
Qed.



(** X15: a token that is the empty string counts as no token: [main] reports
    the authentication as successful, then as failed, and sends no
    request. *)
Theorem main_empty_token :
  token_result env !! "access_token" = Some "" ->
  let w := (main fl env initial_world).1 in
  drop 4 (stdout w) =
    [ [Lit ("✓ Authentication successful" ++ nl)];
      [Lit "Failed to authenticate. Check your .env file credentials."] ] /\
  requested w = [] /\ saved w = [] /\
  (main fl env initial_world).2 = Return tt.
Proof.
  intros Htok. cbv zeta.
  unfold main, get_access_token, mbind, proc_bind, say, mret, proc_ret.
  rewrite Htok. cbn [stdout requested saved initial_world fst snd app].
  done.
Qed.

End MainClaims.

Lemma main_early_exit_witness :
  report_inputs env_no_users = None /\
  (main Qred env_no_users initial_world).2 = Return tt /\
  saved (main Qred env_no_users initial_world).1 = [] /\
  requested (main Qred env_no_users initial_world).1 = [skus_url; users_url].
Proof.
  assert (Hnone : report_inputs env_no_users = None) by reflexivity.
  split; [exact Hnone|].
  destruct (main_early_exit Qred env_no_users Hnone) as (Hr & Hs & Hq & _).
  split; [exact Hr|]. split; [exact Hs | exact Hq].
Defined.



Lemma main_empty_token_witness :
  token_result env_empty_token !! "access_token" = Some "" /\
  requested (main Qred env_empty_token initial_world).1 = [] /\
  (main Qred env_empty_token initial_world).2 = Return tt.
Proof.
  assert (Htok : token_result env_empty_token !! "access_token" = Some "")
    by reflexivity.
  split; [exact Htok|].
  destruct (main_empty_token Qred env_empty_token Htok) as (_ & Hq & _ & Hr).
  split; [exact Hq | exact Hr].
Defined.

(** ** The sign of the utilization *)

Lemma fl_nonneg (fl : Q -> Q) (eps x : Q) :
  standard_model fl eps -> (eps <= 1)%Q -> (0 <= x)%Q -> (0 <= fl x)%Q.
Proof.
  intros [Heps Hfl] H1 Hx. specialize (Hfl x).
  rewrite (Qabs_pos x) in Hfl by done.
  apply Qabs_Qle_condition in Hfl as [Hlow _]. nra.
Qed.

(** X16: where no consumed count is negative and the relative rounding error is
    at most 1, no utilization of an analyzed report is negative. *)
Theorem utilization_nonnegative (fl : Q -> Q) (eps : Q) (skus : list sku)
    (us : list user) :
  standard_model fl eps ->
  (eps <= 1)%Q ->
  Forall (fun s => 0 <= consumedUnits s) skus ->
  exists rows,
    analyze_licenses fl skus us = Return rows /\
    Forall (fun r => (0 <= num_value (utilization_pct r))%Q) rows.
Proof.
  intros Hstd H1 Hwf. exists (map (row_of fl us) skus).
  split; [apply analyze_licenses_returns|].
  rewrite Forall_map. eapply Forall_impl; [exact Hwf|].
  intros s Hc. cbn. unfold utilization_value.
  destruct (Z.gtb_spec (enabled (prepaidUnits s)) 0) as [He|_]; [|done].
  cbn. unfold float_mul_int.
  apply (fl_nonneg fl eps); [done..|].
  apply Qmult_le_0_compat; [|done].
  apply (fl_nonneg fl eps); [done..|].
  apply Qle_shift_div_l.
  - replace 0%Q with (inject_Z 0) by reflexivity. by rewrite <- Zlt_Qlt.
  - rewrite Qmult_0_l. replace 0%Q with (inject_Z 0) by reflexivity.
    by rewrite <- Zle_Qle.
Qed.

Lemma utilization_nonnegative_witness :
  standard_model Qred (1 # 9007199254740992) /\
  (1 # 9007199254740992 <= 1)%Q /\
  Forall (fun s => 0 <= consumedUnits s) [sku_a; sku_b] /\
  exists rows,
    analyze_licenses Qred [sku_a; sku_b] [alice; bob] = Return rows /\
    Forall (fun r => (0 <= num_value (utilization_pct r))%Q) rows.
Proof.
  assert (Hstd : standard_model Qred (1 # 9007199254740992)).
  { apply exact_arithmetic_standard; [discriminate | apply Qred_correct]. }
  assert (H1 : (1 # 9007199254740992 <= 1)%Q) by discriminate.
  assert (Hwf : Forall (fun s => 0 <= consumedUnits s) [sku_a; sku_b]).
  { repeat constructor; cbn; lia. }
  split; [exact Hstd|]. split; [exact H1|]. split; [exact Hwf|].
  exact (utilization_nonnegative Qred _ [sku_a; sku_b] [alice; bob] Hstd H1 Hwf).
Defined.
